(** * Deployer: webhook server, manual trigger, status query and deploy worker

    A shallow embedding of the deployer service:
    - [src/index.ts] and its plain JavaScript twin (the Express server: GitHub
      webhook, manual deploy trigger, job status),
    - the agent registry of the configuration module,
    - [src/worker.ts] (the deploy worker and its temporary workspace),
    together with a model of the job queue the server and the worker talk to.

    Conventions.  A JavaScript string is represented by the byte sequence of
    its UTF-8 encoding, so [String.length] is the byte length that
    [Buffer.from(s)] has.  An [option] stands for a value that may be
    [undefined].  A handler is a computation in the monad [Js.M S], which
    threads a state [S] (the queue, or the file system) and may throw. *)

From Stdlib Require Import ZArith Lia.
From stdpp Require Import base option list strings pretty gmap.

Set Warnings "-register-all".

Local Open Scope string_scope.
Local Open Scope Z_scope.
Local Open Scope nat_scope.
Local Open Scope list_scope.

(* ===================================================================== *)
(** ** JavaScript runtime: completions, the state-and-exception monad      *)
(* ===================================================================== *)

Module Js.

Inductive JsError :=
| TypeError (msg : string)
| RangeError (msg : string)
| SystemError (code : string)        (* fs errors: ENOENT, EEXIST, ... *)
| ExecaError (msg : string).         (* a child process exited non-zero *)

(** The completion of an evaluation: a value, or a thrown exception. *)
Inductive Completion (A : Type) :=
| Normal (a : A)
| Throw (e : JsError).
Arguments Normal {A} a.
Arguments Throw {A} e.

Definition M (S A : Type) : Type := S -> Completion A * S.

Definition ret {S A} (a : A) : M S A := fun s => (Normal a, s).

Definition bind {S A B} (c : M S A) (k : A -> M S B) : M S B :=
  fun s =>
    match c s with
    | (Normal a, s') => k a s'
    | (Throw e, s') => (Throw e, s')
    end.

Definition throw {S A} (e : JsError) : M S A := fun s => (Throw e, s).

(** A pure evaluation that may throw, run inside a computation. *)
Definition lift {S A} (c : Completion A) : M S A := fun s => (c, s).

(** [try { body } catch { handler }] *)
Definition try_catch {S A} (body : M S A) (handler : JsError -> M S A) : M S A :=
  fun s =>
    match body s with
    | (Normal a, s') => (Normal a, s')
    | (Throw e, s') => handler e s'
    end.

(** [try { body } finally { fin }]: [fin] runs on both completions of
    [body]; when [fin] itself throws, its exception replaces the
    completion of [body]. *)
Definition try_finally {S A} (body : M S A) (fin : M S unit) : M S A :=
  fun s =>
    match body s with
    | (r, s') =>
        match fin s' with
        | (Normal _, s'') => (r, s'')
        | (Throw e, s'') => (Throw e, s'')
        end
    end.

(** [x.f] where [x] may be [undefined]: reading a property of
    [undefined] throws a [TypeError]. *)
Definition deref {A} (what : string) (x : option A) : Completion A :=
  match x with
  | Some a => Normal a
  | None => Throw (TypeError ("Cannot read properties of undefined (" +:+ what +:+ ")"))
  end.

(** [s.startsWith(p)] *)
Fixpoint startsWith (p s : string) : bool :=
  match p, s with
  | EmptyString, _ => true
  | String a p', String b s' => if Ascii.eqb a b then startsWith p' s' else false
  | String _ _, EmptyString => false
  end.

Fixpoint drop_chars (n : nat) (s : string) : string :=
  match n, s with
  | O, _ => s
  | S n', String _ s' => drop_chars n' s'
  | S _, EmptyString => EmptyString
  end.

(** [s.replace(pat, rep)] for a string pattern: only the first occurrence
    of [pat], wherever it is, is replaced. *)
Fixpoint replace (pat rep s : string) : string :=
  if startsWith pat s then rep +:+ drop_chars (String.length pat) s
  else match s with
       | EmptyString => EmptyString
       | String c s' => String c (replace pat rep s')
       end.

(** [xs.includes(x)] on an array of strings. *)
Definition includes (xs : list string) (x : string) : bool :=
  existsb (String.eqb x) xs.

(** [x || dflt] on a possibly undefined string: [undefined] and the empty
    string are falsy. *)
Definition or_else (x : option string) (dflt : string) : string :=
  match x with
  | Some s => if String.eqb s "" then dflt else s
  | None => dflt
  end.

(** JSON values, as sent by [res.json]. *)
Inductive Json :=
| JNull
| JBool (b : bool)
| JNum (n : Z)
| JStr (s : string)
| JArr (xs : list Json)
| JObj (fields : list (string * Json)).

(** An object literal whose property values may be [undefined]:
    serialisation drops the undefined properties. *)
Definition obj (fields : list (string * option Json)) : Json :=
  JObj (omap (fun kv => match kv.2 with
                        | Some v => Some (kv.1, v)
                        | None => None
                        end) fields).

(** [o[k]] on a JSON value. *)
Fixpoint assoc (k : string) (fields : list (string * Json)) : option Json :=
  match fields with
  | [] => None
  | (k', v) :: rest => if String.eqb k k' then Some v else assoc k rest
  end.

Definition get (k : string) (j : Json) : option Json :=
  match j with
  | JObj fields => assoc k fields
  | _ => None
  end.

End Js.

Import Js.

Notation "'do' x <- c ; k" := (Js.bind c (fun x => k))
  (at level 10, x name, c at level 100, k at level 200).

(* ===================================================================== *)
(** ** The configuration module: agent registry                            *)
(* ===================================================================== *)

Module Config.

Record Agent := {
  name : string;
  repo : string;
  vercelProjectId : string;
  autoDeploy : bool;
  branches : list string;
}.

Record DeployConfig := {
  vercel_token : string;
  vercel_teamId : option string;
  github_token : string;
  github_org : string;
  redis_url : string;
  webhook_secret : string;
  webhook_port : Z;
}.

(** Agent registry - all deployable agents *)
Definition agents : list Agent := [
  {| name := "edna"; repo := "edna-ghl-agent"; vercelProjectId := "";
     autoDeploy := true; branches := ["main"] |};
  {| name := "mabel"; repo := "mabel-lead-agent"; vercelProjectId := "";
     autoDeploy := true; branches := ["main"] |};
  {| name := "otis"; repo := "otis-seo-agent"; vercelProjectId := "";
     autoDeploy := true; branches := ["main"] |};
  {| name := "harold"; repo := "harold-finance-agent"; vercelProjectId := "";
     autoDeploy := true; branches := ["main"] |}
].

End Config.


(* ===================================================================== *)
(** ** The job queue                                                       *)
(* ===================================================================== *)

(** The server and the worker reach the queue through the [Queue] and
    [Worker] classes of the queue library.  The library is not part of the
    repository; what the repository fixes is the payload type, the options
    it passes to [add] and the calls it makes. *)

Module Queue.

(** [interface DeployJob] of the worker. *)
Record DeployJob := {
  agent : string;
  repo : string;
  branch : string;
  commit : option string;
  commitMessage : option string;
  manual : option bool;
  timestamp : string;
}.

(** The value a deployment resolves to. *)
Record DeployResult := {
  url : string;
  deploymentId : string;
}.

Inductive BackoffType := exponential.

Record BackoffOptions := {
  type : BackoffType;
  delay : Z;                      (* milliseconds *)
}.

Record JobsOptions := {
  attempts : nat;
  backoff : BackoffOptions;
}.

(** Modelled from the spec: the states of the Job State Machine, which the
    queue library implements. *)
Inductive JobState := Waiting | Active | Completed | Failed | DelayedRetry.

#[global] Instance JobState_eq_dec : EqDecision JobState.
Proof. solve_decision. Defined.

(** Modelled from the spec: the Job Record of the data model, which the
    queue library implements.  [returnvalue] is the record's result,
    [failedReason] its failureReason; [availableAt] is the time (ms) from
    which a DelayedRetry job may go back to Waiting. *)
Record Job := {
  id : string;
  name : string;
  data : DeployJob;
  opts : JobsOptions;
  attemptsMade : nat;
  state : JobState;
  returnvalue : option DeployResult;
  failedReason : option string;
  availableAt : Z;
}.

Definition update (j : Job) (n : nat) (st : JobState)
    (rv : option DeployResult) (fr : option string) (at_ : Z) : Job :=
  {| id := id j; name := name j; data := data j; opts := opts j;
     attemptsMade := n; state := st; returnvalue := rv; failedReason := fr;
     availableAt := at_ |}.

(** Modelled from the spec: the retry policy of the Durable Queue,
    [delay = baseDelay * 2^(attemptsMade - 1)], with [baseDelay] the
    [backoff.delay] option. *)
Definition backoffDelay (o : JobsOptions) (made : nat) : Z :=
  match type (backoff o) with
  | exponential => (delay (backoff o) * 2 ^ (Z.of_nat made - 1))%Z
  end.

(** Modelled from the spec: the events of the transition table, which are
    calls into and timers of the queue library. *)
Inductive Event :=
| claim                                        (* claimed by a worker *)
| acknowledgeSuccess (result : DeployResult)   (* executor succeeds *)
| acknowledgeFailure (now : Z) (reason : string) (* executor fails at [now] *)
| claimExpired                                 (* visibility timeout, no ack *)
| backoffElapsed (now : Z).                    (* the clock reaches [now] *)

(** Modelled from the spec: the transition table of the Job State Machine,
    which the queue library implements.
    - Waiting, claimed by worker: Active ([attemptsMade] is incremented on
      each claim; at most [attempts] attempts are made in total, so a job
      that has used its budget is not claimed again);
    - Active, executor succeeds: Completed;
    - Active, executor fails with attempts remaining: DelayedRetry, to be
      reclaimable only after [backoffDelay];
    - Active, executor fails on the last attempt: Failed;
    - Active, claim visibility timeout expires without ack: Waiting;
    - DelayedRetry, backoff delay elapses: Waiting.
    The maximum number of attempts is the [attempts] option.  The result is
    present only in Completed, the failure reason only in Failed and
    DelayedRetry.  [None] when the event is not enabled in the job's
    state. *)
Definition step (ev : Event) (j : Job) : option Job :=
  match ev, state j with
  | claim, Waiting =>
      if attemptsMade j <? attempts (opts j)
      then Some (update j (S (attemptsMade j)) Active None None (availableAt j))
      else None
  | acknowledgeSuccess r, Active =>
      Some (update j (attemptsMade j) Completed (Some r) None (availableAt j))
  | acknowledgeFailure now reason, Active =>
      if attemptsMade j <? attempts (opts j)
      then Some (update j (attemptsMade j) DelayedRetry None (Some reason)
                   (now + backoffDelay (opts j) (attemptsMade j))%Z)
      else Some (update j (attemptsMade j) Failed None (Some reason) (availableAt j))
  | claimExpired, Active =>
      Some (update j (attemptsMade j) Waiting None None (availableAt j))
  | backoffElapsed now, DelayedRetry =>
      if (availableAt j <=? now)%Z
      then Some (update j (attemptsMade j) Waiting None None (availableAt j))
      else None
  | _, _ => None
  end.

(** A job's history: the events applied in order. *)
Fixpoint run (evs : list Event) (j : Job) : option Job :=
  match evs with
  | [] => Some j
  | ev :: evs' =>
      match step ev j with
      | Some j' => run evs' j'
      | None => None
      end
  end.

(** The queue: its jobs in insertion order, and the id counter. *)
Record t := {
  jobs : list Job;
  counter : nat;
}.

Definition empty : t := {| jobs := []; counter := 0 |}.

(** Modelled from the spec: a Job Record on creation, with
    [attemptsMade = 0] and state Waiting. *)
Definition fresh (jid : string) (nm : string) (d : DeployJob) (o : JobsOptions) : Job :=
  {| id := jid; name := nm; data := d; opts := o;
     attemptsMade := 0; state := Waiting;
     returnvalue := None; failedReason := None; availableAt := 0 |}.

(** Modelled from the spec: [enqueue(job) -> jobId] of the Durable Queue,
    called as [deployQueue.add(name, data, opts)] of the queue library.  The
    id is assigned by the queue, from its counter. *)
Definition add (nm : string) (d : DeployJob) (o : JobsOptions) : Js.M t Job :=
  fun q =>
    let n := S (counter q) in
    let j := fresh (pretty n) nm d o in
    (Normal j, {| jobs := jobs q ++ [j]; counter := n |}).

(** Modelled from the spec: [getById(jobId) -> JobRecord | not-found] of
    the Durable Queue, called as [deployQueue.getJob(jobId)] of the queue
    library. *)
Definition getJob (jid : string) : Js.M t (option Job) :=
  fun q => (Normal (find (fun j => String.eqb (id j) jid) (jobs q)), q).

(** Modelled from the spec: the state of a Job Record, read as
    [job.getState()] of the queue library. *)
Definition getState (j : Job) : Js.M t JobState :=
  fun q => (Normal (state j), q).

(** An event on the job with id [jid]. *)
Definition apply (jid : string) (ev : Event) (q : t) : option t :=
  match find (fun j => String.eqb (id j) jid) (jobs q) with
  | None => None
  | Some j =>
      match step ev j with
      | None => None
      | Some j' =>
          Some {| jobs := map (fun k => if String.eqb (id k) jid then j' else k) (jobs q);
                  counter := counter q |}
      end
  end.

(** What a queue can go through: triggers enqueue, workers and the clock
    move jobs. *)
Inductive Action :=
| enqueue (nm : string) (d : DeployJob) (o : JobsOptions)
| on_job (jid : string) (ev : Event).

Definition act (a : Action) (q : t) : option t :=
  match a with
  | enqueue nm d o => Some (add nm d o q).2
  | on_job jid ev => apply jid ev q
  end.

Fixpoint acts (l : list Action) (q : t) : option t :=
  match l with
  | [] => Some q
  | a :: l' =>
      match act a q with
      | Some q' => acts l' q'
      | None => None
      end
  end.

End Queue.

(* ===================================================================== *)
(** ** HTTP requests and responses                                         *)
(* ===================================================================== *)

Module Express.

(** The parts of a parsed JSON body the handlers read.  A field that is
    present has the type the handlers expect of it. *)
Record Commit := {
  id : option string;
  message : option string;
}.

Record Repository := {
  name : string;
}.

Record Body := {
  ref : option string;
  repository : option Repository;
  commits : option (list Commit);
  branch : option string;
}.

Record Headers := {
  x_hub_signature_256 : option string;
  x_github_event : option string;
}.

(** Route parameters: [:agent] of [/deploy/:agent], [:jobId] of
    [/deploy/:jobId/status]. *)
Record Params := {
  agent : string;
  jobId : string;
}.

Record Request := {
  headers : Headers;
  params : Params;
  body : Body;
}.

Record Response := {
  status : nat;
  json : Json;
}.

(** [res.status(code).json(o)] and [res.json(o)] *)
Definition res_status_json (code : nat) (o : Json) : Response :=
  {| status := code; json := o |}.

Definition res_json (o : Json) : Response := res_status_json 200 o.

End Express.

(** [job.data] and [job.returnvalue] as they are serialised. *)
Definition DeployJob_json (d : Queue.DeployJob) : Json :=
  obj [("agent", Some (JStr (Queue.agent d)));
       ("repo", Some (JStr (Queue.repo d)));
       ("branch", Some (JStr (Queue.branch d)));
       ("commit", JStr <$> Queue.commit d);
       ("commitMessage", JStr <$> Queue.commitMessage d);
       ("manual", JBool <$> Queue.manual d);
       ("timestamp", Some (JStr (Queue.timestamp d)))].

Definition DeployResult_json (r : Queue.DeployResult) : Json :=
  obj [("url", Some (JStr (Queue.url r)));
       ("deploymentId", Some (JStr (Queue.deploymentId r)))].

(** [job.returnvalue] is [null] until the job has a result. *)
Definition returnvalue_json (r : option Queue.DeployResult) : Json :=
  match r with
  | Some r => DeployResult_json r
  | None => JNull
  end.

(** The state names [job.getState()] answers with. *)
Definition state_name (st : Queue.JobState) : string :=
  match st with
  | Queue.Waiting => "waiting"
  | Queue.Active => "active"
  | Queue.Completed => "completed"
  | Queue.Failed => "failed"
  | Queue.DelayedRetry => "delayed"
  end.

(** [{ attempts: 3, backoff: { type: 'exponential', delay: 5000 } }] *)
Definition deploy_opts : Queue.JobsOptions :=
  {| Queue.attempts := 3;
     Queue.backoff := {| Queue.type := Queue.exponential; Queue.delay := 5000 |} |}.

(** The Node primitives under [verifySignature]. *)
Module Crypto.

(** [Buffer.from(s)]: the UTF-8 bytes of a string; a [TypeError] when the
    argument is [undefined]. *)
Definition Buffer_from (s : option string) : Completion (list Ascii.ascii) :=
  match s with
  | Some s => Normal (String.list_ascii_of_string s)
  | None => Throw (TypeError "The first argument must be of type string or an instance of Buffer")
  end.

(** [crypto.timingSafeEqual(a, b)]: a [RangeError] unless both buffers have
    the same byte length. *)
Definition timingSafeEqual (a b : list Ascii.ascii) : Completion bool :=
  if length a =? length b
  then Normal (bool_decide (a = b))
  else Throw (RangeError "Input buffers must have the same byte length").

End Crypto.

(* ===================================================================== *)
(** ** src/index.ts: the webhook server                                    *)
(* ===================================================================== *)

Module IndexTs.
Section Server.

(** The registry and configuration the module imports, the HMAC-SHA256 hex
    digest of [crypto] ([secret], then [payload]) and [JSON.stringify]. *)
Variable agents : list Config.Agent.
Variable config : Config.DeployConfig.
Variable hmac_sha256_hex : string -> string -> string.
Variable JSON_stringify : Express.Body -> string.

(** Verify GitHub webhook signature *)
Definition verifySignature (payload : string) (signature : option string)
    (secret : string) : Completion bool :=
  let digest := "sha256=" +:+ hmac_sha256_hex secret payload in
  match Crypto.Buffer_from signature with
  | Throw e => Throw e
  | Normal a =>
      match Crypto.Buffer_from (Some digest) with
      | Throw e => Throw e
      | Normal b => Crypto.timingSafeEqual a b
      end
  end.

Definition ignored (reason : string) : Express.Response :=
  Express.res_status_json 200
    (obj [("ignored", Some (JBool true)); ("reason", Some (JStr reason))]).

(** GitHub webhook handler: [app.post('/webhook/github', ...)].  [now] is
    the value of [new Date().toISOString()]. *)
Definition post_webhook_github (now : string) (req : Express.Request)
    : Js.M Queue.t Express.Response :=
  let signature := Express.x_hub_signature_256 (Express.headers req) in
  let payload := JSON_stringify (Express.body req) in
  do valid <- lift (verifySignature payload signature (Config.webhook_secret config));
  if negb valid then
    ret (Express.res_status_json 401 (obj [("error", Some (JStr "Invalid signature"))]))
  else
    let event := Express.x_github_event (Express.headers req) in
    if bool_decide (event = Some "push") then
      let '(ref, repository, commits) :=
        (Express.ref (Express.body req),
         Express.repository (Express.body req),
         Express.commits (Express.body req)) in
      do ref <- lift (deref "replace" ref);
      let branch := replace "refs/heads/" "" ref in
      do repository <- lift (deref "name" repository);
      let repoName := Express.name repository in
      (* logger.info({ repo, branch, commits: commits.length }, ...) *)
      do commits <- lift (deref "length" commits);
      (* Find matching agent *)
      match find (fun a => String.eqb (Config.repo a) repoName) agents with
      | None => ret (ignored "unknown repo")
      | Some agent =>
          if negb (includes (Config.branches agent) branch) then
            ret (ignored "branch not configured")
          else if negb (Config.autoDeploy agent) then
            ret (ignored "auto-deploy disabled")
          else
            (* Queue deployment *)
            do job <- Queue.add "deploy"
              {| Queue.agent := Config.name agent;
                 Queue.repo := repoName;
                 Queue.branch := branch;
                 Queue.commit :=
                   Some (or_else (head commits ≫= Express.id) "unknown");
                 Queue.commitMessage :=
                   Some (or_else (head commits ≫= Express.message) "");
                 Queue.manual := None;
                 Queue.timestamp := now |}
              deploy_opts;
            ret (Express.res_json
                   (obj [("queued", Some (JBool true));
                         ("jobId", Some (JStr (Queue.id job)));
                         ("agent", Some (JStr (Config.name agent)));
                         ("branch", Some (JStr branch))]))
      end
    else
      ret (Express.res_json
             (obj [("received", Some (JBool true)); ("event", JStr <$> event)])).

(** Manual deploy trigger: [app.post('/deploy/:agent', ...)] *)
Definition post_deploy_agent (now : string) (req : Express.Request)
    : Js.M Queue.t Express.Response :=
  let agentName := Express.agent (Express.params req) in
  match find (fun a => String.eqb (Config.name a) agentName) agents with
  | None =>
      ret (Express.res_status_json 404 (obj [("error", Some (JStr "Agent not found"))]))
  | Some agent =>
      do job <- Queue.add "deploy"
        {| Queue.agent := Config.name agent;
           Queue.repo := Config.repo agent;
           Queue.branch := or_else (Express.branch (Express.body req)) "main";
           Queue.commit := None;
           Queue.commitMessage := None;
           Queue.manual := Some true;
           Queue.timestamp := now |}
        deploy_opts;
      ret (Express.res_json
             (obj [("queued", Some (JBool true));
                   ("jobId", Some (JStr (Queue.id job)));
                   ("agent", Some (JStr (Config.name agent)))]))
  end.

(** Get deployment status: [app.get('/deploy/:jobId/status', ...)] *)
Definition get_deploy_status (req : Express.Request)
    : Js.M Queue.t Express.Response :=
  do job <- Queue.getJob (Express.jobId (Express.params req));
  match job with
  | None =>
      ret (Express.res_status_json 404 (obj [("error", Some (JStr "Job not found"))]))
  | Some job =>
      do state <- Queue.getState job;
      ret (Express.res_json
             (obj [("id", Some (JStr (Queue.id job)));
                   ("state", Some (JStr (state_name state)));
                   ("data", Some (DeployJob_json (Queue.data job)));
                   ("result", Some (returnvalue_json (Queue.returnvalue job)));
                   ("failedReason", JStr <$> Queue.failedReason job);
                   ("attemptsMade", Some (JNum (Z.of_nat (Queue.attemptsMade job))))]))
  end.

End Server.
End IndexTs.

(* ===================================================================== *)
(** ** The plain JavaScript twin of the server                             *)
(* ===================================================================== *)

(** The repository carries a second copy of the server, without the
    logger and exporting [app].  Its handlers are the ones below; they
    differ from [IndexTs] in when [commits] is first read, in the job
    payload (no [commitMessage]) and in the status response. *)

Module ServerJs.
Section Server.

Variable agents : list Config.Agent.
Variable config : Config.DeployConfig.
Variable hmac_sha256_hex : string -> string -> string.
Variable JSON_stringify : Express.Body -> string.

(** Verify GitHub webhook signature *)
Definition verifySignature (payload : string) (signature : option string)
    (secret : string) : Completion bool :=
  let digest := "sha256=" +:+ hmac_sha256_hex secret payload in
  match Crypto.Buffer_from signature with
  | Throw e => Throw e
  | Normal a =>
      match Crypto.Buffer_from (Some digest) with
      | Throw e => Throw e
      | Normal b => Crypto.timingSafeEqual a b
      end
  end.

Definition ignored (reason : string) : Express.Response :=
  Express.res_status_json 200
    (obj [("ignored", Some (JBool true)); ("reason", Some (JStr reason))]).

(** GitHub webhook handler *)
Definition post_webhook_github (now : string) (req : Express.Request)
    : Js.M Queue.t Express.Response :=
  let signature := Express.x_hub_signature_256 (Express.headers req) in
  let payload := JSON_stringify (Express.body req) in
  do valid <- lift (verifySignature payload signature (Config.webhook_secret config));
  if negb valid then
    ret (Express.res_status_json 401 (obj [("error", Some (JStr "Invalid signature"))]))
  else
    let event := Express.x_github_event (Express.headers req) in
    if bool_decide (event = Some "push") then
      let '(ref, repository, commits) :=
        (Express.ref (Express.body req),
         Express.repository (Express.body req),
         Express.commits (Express.body req)) in
      do ref <- lift (deref "replace" ref);
      let branch := replace "refs/heads/" "" ref in
      do repository <- lift (deref "name" repository);
      let repoName := Express.name repository in
      match find (fun a => String.eqb (Config.repo a) repoName) agents with
      | None => ret (ignored "unknown repo")
      | Some agent =>
          if negb (includes (Config.branches agent) branch) then
            ret (ignored "branch not configured")
          else if negb (Config.autoDeploy agent) then
            ret (ignored "auto-deploy disabled")
          else
            (* commits[0] *)
            do commits <- lift (deref "0" commits);
            do job <- Queue.add "deploy"
              {| Queue.agent := Config.name agent;
                 Queue.repo := repoName;
                 Queue.branch := branch;
                 Queue.commit :=
                   Some (or_else (head commits ≫= Express.id) "unknown");
                 Queue.commitMessage := None;
                 Queue.manual := None;
                 Queue.timestamp := now |}
              deploy_opts;
            ret (Express.res_json
                   (obj [("queued", Some (JBool true));
                         ("jobId", Some (JStr (Queue.id job)));
                         ("agent", Some (JStr (Config.name agent)));
                         ("branch", Some (JStr branch))]))
      end
    else
      ret (Express.res_json
             (obj [("received", Some (JBool true)); ("event", JStr <$> event)])).

(** Manual deploy trigger *)
Definition post_deploy_agent (now : string) (req : Express.Request)
    : Js.M Queue.t Express.Response :=
  match find (fun a => String.eqb (Config.name a) (Express.agent (Express.params req)))
          agents with
  | None =>
      ret (Express.res_status_json 404 (obj [("error", Some (JStr "Agent not found"))]))
  | Some agent =>
      do job <- Queue.add "deploy"
        {| Queue.agent := Config.name agent;
           Queue.repo := Config.repo agent;
           Queue.branch := or_else (Express.branch (Express.body req)) "main";
           Queue.commit := None;
           Queue.commitMessage := None;
           Queue.manual := Some true;
           Queue.timestamp := now |}
        deploy_opts;
      ret (Express.res_json
             (obj [("queued", Some (JBool true));
                   ("jobId", Some (JStr (Queue.id job)));
                   ("agent", Some (JStr (Config.name agent)))]))
  end.

(** Get deployment status *)
Definition get_deploy_status (req : Express.Request)
    : Js.M Queue.t Express.Response :=
  do job <- Queue.getJob (Express.jobId (Express.params req));
  match job with
  | None =>
      ret (Express.res_status_json 404 (obj [("error", Some (JStr "Job not found"))]))
  | Some job =>
      do state <- Queue.getState job;
      ret (Express.res_json
             (obj [("id", Some (JStr (Queue.id job)));
                   ("state", Some (JStr (state_name state)));
                   ("data", Some (DeployJob_json (Queue.data job)));
                   ("result", Some (returnvalue_json (Queue.returnvalue job)));
                   ("failedReason", JStr <$> Queue.failedReason job)]))
  end.

End Server.
End ServerJs.

(* ===================================================================== *)
(** ** src/worker.ts: the deploy worker                                    *)
(* ===================================================================== *)

Module WorkerTs.

(** The file system: the set of paths that exist. *)
Abbreviation FS := (gset string).

(** What lies outside the worker: the temporary directory of the host, the
    random suffix [mkdtemp] draws, the child processes ([git], [vercel]),
    which may exit non-zero and do to the file system whatever they do, a
    possible failure of [writeFile], and the clock. *)
Record World := {
  os_tmpdir : string;
  mkdtemp_suffix : string;
  execa : string -> list string -> option string -> Js.M FS string;
  writeFile_error : option JsError;
  Date_now : Z;
}.

(** [path.join(a, b)] for segments that need no normalisation. *)
Definition path_join (a b : string) : string := a +:+ "/" +:+ b.

(** [p] is [dir] or lies below it. *)
Definition inside (dir p : string) : bool :=
  String.eqb p dir || startsWith (dir +:+ "/") p.

(** [fs.mkdtemp(prefix)]: creates a directory that did not exist. *)
Definition fs_mkdtemp (w : World) (prefix : string) : Js.M FS string :=
  fun fs =>
    let dir := prefix +:+ mkdtemp_suffix w in
    if bool_decide (dir ∈ fs) then (Throw (SystemError "EEXIST"), fs)
    else (Normal dir, {[dir]} ∪ fs).

(** [fs.access(p)] *)
Definition fs_access (p : string) : Js.M FS unit :=
  fun fs =>
    if bool_decide (p ∈ fs) then (Normal tt, fs)
    else (Throw (SystemError "ENOENT"), fs).

(** [fs.writeFile(p, content)] *)
Definition fs_writeFile (w : World) (p : string) (content : Json) : Js.M FS unit :=
  fun fs =>
    match writeFile_error w with
    | Some e => (Throw e, fs)
    | None => (Normal tt, {[p]} ∪ fs)
    end.

(** [fs.rm(dir, { recursive: true, force: true })]: [dir] and all below
    it go; with [force] a missing [dir] is no error. *)
Definition fs_rm (dir : string) : Js.M FS unit :=
  fun fs => (Normal tt, filter (fun p => inside dir p = false) fs).

Definition is_space (c : Ascii.ascii) : bool :=
  let n := Ascii.nat_of_ascii c in
  (n =? 32) || ((9 <=? n) && (n <=? 13)).

Fixpoint trimStart (s : string) : string :=
  match s with
  | String c s' => if is_space c then trimStart s' else s
  | EmptyString => EmptyString
  end.

(** [s.trim()] (ASCII white space) *)
Definition trim (s : string) : string :=
  String.rev (trimStart (String.rev (trimStart s))).

(** [s.split('\n')] *)
Fixpoint split_lines (s : string) : list string :=
  match s with
  | EmptyString => [EmptyString]
  | String c s' =>
      if Ascii.nat_of_ascii c =? 10 then EmptyString :: split_lines s'
      else match split_lines s' with
           | [] => [String c EmptyString]
           | l :: ls => String c l :: ls
           end
  end.

Definition default_vercel_json : Json :=
  obj [("version", Some (JNum 2));
       ("builds", Some (JArr [obj [("src", Some (JStr "dist/index.js"));
                                   ("use", Some (JStr "@vercel/node"))]]));
       ("routes", Some (JArr [obj [("src", Some (JStr "/(.*)"));
                                   ("dest", Some (JStr "dist/index.js"))]]))].

Section Worker.

Variable config : Config.DeployConfig.
Variable w : World.

Definition deployAgent (jobData : Queue.DeployJob) : Js.M FS Queue.DeployResult :=
  let '(agent, repo, branch) :=
    (Queue.agent jobData, Queue.repo jobData, Queue.branch jobData) in
  (* Create temp directory *)
  do tmpDir <- fs_mkdtemp w (path_join (os_tmpdir w) ("deploy-" +:+ agent +:+ "-"));
  try_finally
    ((* Clone repository *)
     let repoUrl := "https://" +:+ Config.github_token config +:+ "@github.com/"
                    +:+ Config.github_org config +:+ "/" +:+ repo +:+ ".git" in
     do _ <- execa w "git" ["clone"; "--depth"; "1"; "--branch"; branch; repoUrl; tmpDir] None;
     (* Check if vercel.json exists *)
     let vercelConfigPath := path_join tmpDir "vercel.json" in
     do _ <- try_catch (fs_access vercelConfigPath)
               (fun _ => fs_writeFile w vercelConfigPath default_vercel_json);
     (* Deploy to Vercel *)
     let vercelArgs :=
       (["--token"; Config.vercel_token config; "--cwd"; tmpDir; "--yes"]
        ++ match Config.vercel_teamId config with
           | Some teamId => if String.eqb teamId "" then [] else ["--scope"; teamId]
           | None => []
           end)%list in
     do stdout <- execa w "vercel" vercelArgs (Some tmpDir);
     (* Extract deployment URL *)
     let deploymentUrl := or_else (last (split_lines (trim stdout))) "" in
     (* Store deployment info *)
     let deploymentId := "deploy-" +:+ pretty (Date_now w) in
     ret {| Queue.url := deploymentUrl; Queue.deploymentId := deploymentId |})
    ((* Cleanup *)
     fs_rm tmpDir).

(** The processor handed to [new Worker('deployments', ...)]. *)
Definition processor (job : Queue.Job) : Js.M FS Queue.DeployResult :=
  do result <- deployAgent (Queue.data job);
  ret result.

End Worker.
End WorkerTs.

(* ===================================================================== *)
(** ** The configuration module: [getConfig]                               *)
(* ===================================================================== *)

Module ConfigParse.

(** An issue of a failed [DeployConfigSchema.parse]: the path of the field
    that did not validate. *)
Abbreviation ZodIssue := (list string).




Section GetConfig.

(** [process.env], and [parseInt] on a port string, [None] standing for
    [NaN] (the numbers it gives are taken to be integers). *)
Variable env : string -> option string.
Variable parseInt : string -> option Z.


End GetConfig.
End ConfigParse.

(* ===================================================================== *)
(** ** Vocabulary of the properties, and fixtures                          *)
(* ===================================================================== *)

(** [a] is the element [xs.find(p)] returns: the first one, in the order of
    the array, that satisfies [p]. *)
Definition first_such {A} (p : A -> bool) (xs : list A) (a : A) : Prop :=
  exists before after,
    xs = before ++ a :: after /\ p a = true /\ Forall (fun x => p x = false) before.

(** The agent the webhook matches for repository [R], and the agent a manual
    trigger names. *)
Definition agent_for_repo (agents : list Config.Agent) (R : string)
    (a : Config.Agent) : Prop :=
  first_such (fun a => String.eqb (Config.repo a) R) agents a.

Definition agent_named (agents : list Config.Agent) (n : string)
    (a : Config.Agent) : Prop :=
  first_such (fun a => String.eqb (Config.name a) n) agents a.

(** An authenticated push trigger carrying git ref [gitref], repository name
    [R] and the commit list [cs]. *)
Definition push_trigger (config : Config.DeployConfig)
    (hmac_sha256_hex : string -> string -> string)
    (JSON_stringify : Express.Body -> string)
    (req : Express.Request) (gitref R : string) (cs : list Express.Commit) : Prop :=
  IndexTs.verifySignature hmac_sha256_hex
    (JSON_stringify (Express.body req))
    (Express.x_hub_signature_256 (Express.headers req))
    (Config.webhook_secret config) = Normal true
  /\ Express.x_github_event (Express.headers req) = Some "push"
  /\ Express.ref (Express.body req) = Some gitref
  /\ Express.repository (Express.body req) = Some {| Express.name := R |}
  /\ Express.commits (Express.body req) = Some cs.

(** The branch of a push: [ref.replace('refs/heads/', '')]. *)
Definition branch_of_ref (gitref : string) : string := replace "refs/heads/" "" gitref.

(** The response that reports an enqueued push job. *)
Definition queued_push (job : Queue.Job) (a : Config.Agent) (B : string) : Express.Response :=
  Express.res_json
    (obj [("queued", Some (JBool true));
          ("jobId", Some (JStr (Queue.id job)));
          ("agent", Some (JStr (Config.name a)));
          ("branch", Some (JStr B))]).

(** The queue after exactly one job was appended. *)
Definition enqueued (q : Queue.t) (job : Queue.Job) : Queue.t :=
  {| Queue.jobs := Queue.jobs q ++ [job]; Queue.counter := S (Queue.counter q) |}.

(** What the Dispatcher owes a push trigger for repository [R] and branch
    [B], as a property of the handler [h] run on the queue [q]. *)
Definition push_dispatch (agents : list Config.Agent)
    (h : Js.M Queue.t Express.Response) (q : Queue.t) (R B : string) : Prop :=
  ((forall a, a ∈ agents -> Config.repo a <> R) ->
     h q = (Normal (IndexTs.ignored "unknown repo"), q))
  /\ (forall a, agent_for_repo agents R a ->
        (B ∉ Config.branches a ->
           h q = (Normal (IndexTs.ignored "branch not configured"), q))
        /\ (B ∈ Config.branches a -> Config.autoDeploy a = false ->
              h q = (Normal (IndexTs.ignored "auto-deploy disabled"), q))
        /\ (B ∈ Config.branches a -> Config.autoDeploy a = true ->
              exists job,
                h q = (Normal (queued_push job a B), enqueued q job)
                /\ Queue.attemptsMade job = 0
                /\ Queue.state job = Queue.Waiting
                /\ Queue.opts job = deploy_opts
                /\ Queue.agent (Queue.data job) = Config.name a
                /\ Queue.repo (Queue.data job) = R
                /\ Queue.branch (Queue.data job) = B)).

(** Fixtures: a configuration, a stand-in digest, a serialiser, and push
    requests signed with them. *)
Definition example_config : Config.DeployConfig :=
  {| Config.vercel_token := "vt"; Config.vercel_teamId := None;
     Config.github_token := "gt"; Config.github_org := "captain-earl";
     Config.redis_url := "redis://localhost:6379";
     Config.webhook_secret := "dev-secret"; Config.webhook_port := 3000 |}.

Definition example_hmac (secret payload : string) : string :=
  "0000000000000000000000000000000000000000000000000000000000000000".

Definition example_stringify (b : Express.Body) : string := "{}".

Definition example_push (gitref R : string) : Express.Request :=
  {| Express.headers :=
       {| Express.x_hub_signature_256 :=
            Some ("sha256=" +:+ example_hmac "dev-secret" "{}");
          Express.x_github_event := Some "push" |};
     Express.params := {| Express.agent := ""; Express.jobId := "" |};
     Express.body :=
       {| Express.ref := Some gitref;
          Express.repository := Some {| Express.name := R |};
          Express.commits := Some [{| Express.id := Some "abc123";
                                      Express.message := Some "fix" |}];
          Express.branch := None |} |}.

(** A registry with an agent whose auto-deploy is off. *)
Definition example_registry : list Config.Agent :=
  [{| Config.name := "otis"; Config.repo := "otis-seo-agent";
      Config.vercelProjectId := ""; Config.autoDeploy := true;
      Config.branches := ["main"] |};
   {| Config.name := "harold"; Config.repo := "harold-finance-agent";
      Config.vercelProjectId := ""; Config.autoDeploy := false;
      Config.branches := ["main"] |}].

(** The response that reports an enqueued manual job. *)
Definition queued_manual (job : Queue.Job) (a : Config.Agent) : Express.Response :=
  Express.res_json
    (obj [("queued", Some (JBool true));
          ("jobId", Some (JStr (Queue.id job)));
          ("agent", Some (JStr (Config.name a)))]).

(** A manual trigger for the agent name [n], with the body's [branch]
    field [b]. *)
Definition manual_trigger (req : Express.Request) (n : string) (b : option string) : Prop :=
  Express.agent (Express.params req) = n
  /\ Express.branch (Express.body req) = b.

(** What a manual trigger that names the agent [a] gets: one job appended,
    fresh, for [a], on branch [B]. *)
Definition manual_enqueued (h : Js.M Queue.t Express.Response) (q : Queue.t)
    (a : Config.Agent) (B : string) : Prop :=
  exists job,
    h q = (Normal (queued_manual job a), enqueued q job)
    /\ Queue.attemptsMade job = 0
    /\ Queue.state job = Queue.Waiting
    /\ Queue.opts job = deploy_opts
    /\ Queue.agent (Queue.data job) = Config.name a
    /\ Queue.repo (Queue.data job) = Config.repo a
    /\ Queue.manual (Queue.data job) = Some true
    /\ Queue.branch (Queue.data job) = B.

Definition example_manual (n : string) (b : option string) : Express.Request :=
  {| Express.headers :=
       {| Express.x_hub_signature_256 := None; Express.x_github_event := None |};
     Express.params := {| Express.agent := n; Express.jobId := "" |};
     Express.body :=
       {| Express.ref := None; Express.repository := None;
          Express.commits := None; Express.branch := b |} |}.

(** A registry whose agent has auto-deploy off and deploys only [main]. *)
Definition locked_registry : list Config.Agent :=
  [{| Config.name := "harold"; Config.repo := "harold-finance-agent";
      Config.vercelProjectId := ""; Config.autoDeploy := false;
      Config.branches := ["main"] |}].

(** A registry whose agent deploys only [release]. *)
Definition release_registry : list Config.Agent :=
  [{| Config.name := "otis"; Config.repo := "otis-seo-agent";
      Config.vercelProjectId := ""; Config.autoDeploy := true;
      Config.branches := ["release"] |}].

(** A response is a success when its status is 2xx. *)
Definition is_success (r : Express.Response) : bool :=
  (200 <=? Express.status r) && (Express.status r <? 300).

(** An explicit no-op decision: [{ ignored: true, reason }]. *)
Definition explicit_decision (r : Express.Response) (reason : string) : Prop :=
  get "ignored" (Express.json r) = Some (JBool true)
  /\ get "reason" (Express.json r) = Some (JStr reason).

(** A handler run that answers with a successful response and leaves the
    queue as it was. *)
Definition rejected_as_success (h : Js.M Queue.t Express.Response) (q : Queue.t) : Prop :=
  exists r, h q = (Normal r, q) /\ is_success r = true.

(** The rejection claim for manual triggers, as the specification words
    it: a manual trigger that names no registered agent is answered with a
    successful response. *)
Definition manual_rejection_is_success : Prop :=
  forall agents now req q,
    (forall a, a ∈ agents -> Config.name a <> Express.agent (Express.params req)) ->
    rejected_as_success (IndexTs.post_deploy_agent agents now req) q.

(** The outcome code of a Dispatcher rejection: the [reason] of an
    [ignored] response, the [error] of a 404. *)
Definition rejection_code (r : Express.Response) : option string :=
  match get "ignored" (Express.json r), get "reason" (Express.json r) with
  | Some (JBool true), Some (JStr reason) => Some reason
  | _, _ =>
      if Express.status r =? 404 then
        match get "error" (Express.json r) with
        | Some (JStr e) => Some e
        | _ => None
        end
      else None
  end.

(** Running a trigger handler twice, at times [now1] and [now2], on the
    queue the previous run left: when the first run rejects with some
    code, it left the queue alone and the second run answers the same. *)
Definition idempotent_on_rejection
    (h : string -> Express.Request -> Js.M Queue.t Express.Response) : Prop :=
  forall now1 now2 req q r q1 code,
    h now1 req q = (Normal r, q1) ->
    rejection_code r = Some code ->
    q1 = q
    /\ h now2 req q1 = (Normal r, q1)
    /\ (h now2 req q1).2 = q.

(** A push trigger the Dispatcher rejects: no agent for [R], or the matched
    agent does not deploy [B], or has auto-deploy off. *)
Definition push_rejected (agents : list Config.Agent) (R B : string) : Prop :=
  (forall a, a ∈ agents -> Config.repo a <> R)
  \/ exists a, agent_for_repo agents R a
               /\ (B ∉ Config.branches a \/ Config.autoDeploy a = false).

(** The three reasons a push can be ignored with. *)
Definition push_reasons : list string :=
  ["unknown repo"; "branch not configured"; "auto-deploy disabled"].

(** A push rejection as the caller sees it: status 200, an explicit
    [{ ignored: true, reason }] with one of the three reasons, and the queue
    as it was. *)
Definition push_rejection_reported (h : Js.M Queue.t Express.Response) (q : Queue.t) : Prop :=
  exists r reason,
    h q = (Normal r, q)
    /\ Express.status r = 200
    /\ is_success r = true
    /\ explicit_decision r reason
    /\ reason ∈ push_reasons.

(** A manual rejection as the caller sees it: status 404 with an [error],
    and the queue as it was. *)
Definition manual_rejection_reported (h : Js.M Queue.t Express.Response) (q : Queue.t) : Prop :=
  exists r,
    h q = (Normal r, q)
    /\ Express.status r = 404
    /\ is_success r = false
    /\ get "error" (Express.json r) = Some (JStr "Agent not found").

(** The header is missing, or its byte length is not that of the
    expected ['sha256=' + hex digest]. *)
Definition malformed_signature (signature : option string) (digest : string) : Prop :=
  signature = None
  \/ exists s, signature = Some s /\ String.length s <> String.length digest.

Definition example_unsigned_push : Express.Request :=
  {| Express.headers :=
       {| Express.x_hub_signature_256 := None;
          Express.x_github_event := Some "push" |};
     Express.params := {| Express.agent := ""; Express.jobId := "" |};
     Express.body :=
       {| Express.ref := Some "refs/heads/main";
          Express.repository := Some {| Express.name := "otis-seo-agent" |};
          Express.commits := Some [];
          Express.branch := None |} |}.

(** A job the server enqueued (with [deploy_opts]) and the events [evs] it
    has been through, leaving it as [j]. *)
Definition history (jid nm : string) (d : Queue.DeployJob)
    (evs : list Queue.Event) (j : Queue.Job) : Prop :=
  Queue.run evs (Queue.fresh jid nm d deploy_opts) = Some j.

Definition is_failure (ev : Queue.Event) : bool :=
  match ev with
  | Queue.acknowledgeFailure _ _ => true
  | _ => false
  end.

Definition is_claim_loss (ev : Queue.Event) : bool :=
  match ev with
  | Queue.claimExpired => true
  | _ => false
  end.

(** The number of failed attempts, and of lost claims, in a history. *)
Fixpoint failures (evs : list Queue.Event) : nat :=
  match evs with
  | [] => 0
  | ev :: evs' => (if is_failure ev then 1 else 0) + failures evs'
  end.

Fixpoint claim_losses (evs : list Queue.Event) : nat :=
  match evs with
  | [] => 0
  | ev :: evs' => (if is_claim_loss ev then 1 else 0) + claim_losses evs'
  end.

(** What every job of the server satisfies on the way: it keeps its
    options, and an Active job has been claimed at least once. *)
Definition job_inv (j : Queue.Job) : Prop :=
  Queue.opts j = deploy_opts
  /\ (Queue.state j = Queue.Active -> 1 <= Queue.attemptsMade j).

(** The attempts of a history that ended without success: by a failure
    the executor reported, or by a claim lost to the visibility timeout. *)
Definition failed_attempts (evs : list Queue.Event) : nat :=
  failures evs + claim_losses evs.

(** The same with the count [k] of failed attempts so far. *)
Definition attempts_inv (j : Queue.Job) (k : nat) : Prop :=
  Queue.opts j = deploy_opts
  /\ match Queue.state j with
     | Queue.Waiting => Queue.attemptsMade j = k /\ k <= 3
     | Queue.DelayedRetry => Queue.attemptsMade j = k /\ k <= 2
     | Queue.Active | Queue.Completed => Queue.attemptsMade j = S k /\ k <= 2
     | Queue.Failed => Queue.attemptsMade j = 3 /\ k = 3
     end.

Definition example_data : Queue.DeployJob :=
  {| Queue.agent := "otis"; Queue.repo := "otis-seo-agent"; Queue.branch := "main";
     Queue.commit := Some "abc123"; Queue.commitMessage := Some "fix";
     Queue.manual := None; Queue.timestamp := "2024-01-01T00:00:00.000Z" |}.

(** Three claims lost to the visibility timeout, then an attempt at a
    fourth claim. *)
Definition lost_claims : list Queue.Event :=
  [Queue.claim; Queue.claimExpired; Queue.claim; Queue.claimExpired;
   Queue.claim; Queue.claimExpired; Queue.claim].

(** Three failed attempts, 1s, 10s and 30s into the job's life. *)
Definition three_failures : list Queue.Event :=
  [Queue.claim; Queue.acknowledgeFailure 1000 "clone failed";
   Queue.backoffElapsed 6000;
   Queue.claim; Queue.acknowledgeFailure 10000 "clone failed";
   Queue.backoffElapsed 20000;
   Queue.claim; Queue.acknowledgeFailure 30000 "deploy failed"].

(** A queue the system can be in: what a sequence of enqueues and job
    events makes of the empty queue. *)
Definition reachable (q : Queue.t) : Prop :=
  exists l, Queue.acts l Queue.empty = Some q.

(** A Completed job has its result; a Failed or DelayedRetry job has the
    reason of its last failure. *)
Definition job_wf (j : Queue.Job) : Prop :=
  (Queue.state j = Queue.Completed -> is_Some (Queue.returnvalue j))
  /\ (Queue.state j = Queue.Failed \/ Queue.state j = Queue.DelayedRetry ->
      is_Some (Queue.failedReason j)).

(** The job a status query for [jid] finds. *)
Definition job_with_id (q : Queue.t) (jid : string) : option Queue.Job :=
  find (fun j => String.eqb (Queue.id j) jid) (Queue.jobs q).

(** The projection the status query owes for the job [job]. *)
Definition status_projection (r : Express.Response) (job : Queue.Job) : Prop :=
  Express.status r = 200
  /\ get "id" (Express.json r) = Some (JStr (Queue.id job))
  /\ get "state" (Express.json r) = Some (JStr (state_name (Queue.state job)))
  /\ get "attemptsMade" (Express.json r)
     = Some (JNum (Z.of_nat (Queue.attemptsMade job)))
  /\ (Queue.state job = Queue.Completed ->
      exists res, Queue.returnvalue job = Some res
                  /\ get "result" (Express.json r) = Some (DeployResult_json res))
  /\ (Queue.state job = Queue.Failed \/ Queue.state job = Queue.DelayedRetry ->
      exists reason, Queue.failedReason job = Some reason
                     /\ get "failedReason" (Express.json r) = Some (JStr reason)).

Definition job_not_found : Express.Response :=
  Express.res_status_json 404 (obj [("error", Some (JStr "Job not found"))]).

Definition example_status (jid : string) : Express.Request :=
  {| Express.headers :=
       {| Express.x_hub_signature_256 := None; Express.x_github_event := None |};
     Express.params := {| Express.agent := ""; Express.jobId := jid |};
     Express.body :=
       {| Express.ref := None; Express.repository := None;
          Express.commits := None; Express.branch := None |} |}.

(** The queue after one manual trigger for [edna]. *)
Definition one_job_queue : Queue.t :=
  (IndexTs.post_deploy_agent Config.agents "2024-01-01T00:00:00.000Z"
     (example_manual "edna" None) Queue.empty).2.

(** The workspace directory of an attempt: the one [mkdtemp] creates for
    the job's agent. *)
Definition workspace (w : WorkerTs.World) (d : Queue.DeployJob) : string :=
  WorkerTs.path_join (WorkerTs.os_tmpdir w) ("deploy-" +:+ Queue.agent d +:+ "-")
  +:+ WorkerTs.mkdtemp_suffix w.

(** Neither [dir] nor anything below it exists. *)
Definition workspace_absent (dir : string) (fs : gset string) : Prop :=
  forall p, p ∈ fs -> WorkerTs.inside dir p = false.

Definition newline : string := String (Ascii.ascii_of_nat 10) EmptyString.

(** Worlds for the three ways an attempt ends.  [git clone] leaves a
    checkout in the directory it is given (its last argument), [vercel]
    leaves its project folder in [cwd]; either may exit non-zero. *)
Definition example_execa (clone_ok vercel_ok : bool)
    (file : string) (args : list string) (cwd : option string)
    : Js.M (gset string) string :=
  fun fs =>
    if String.eqb file "git" then
      let dir := default "" (last args) in
      let fs' := {[dir +:+ "/.git"; dir +:+ "/package.json"]} ∪ fs in
      if clone_ok then (Normal "", fs')
      else (Throw (ExecaError "Command failed: git clone"), fs')
    else
      let dir := default "" cwd in
      let fs' := {[dir +:+ "/.vercel"]} ∪ fs in
      if vercel_ok then
        (Normal ("Deploying" +:+ newline +:+ "https://otis.vercel.app" +:+ newline), fs')
      else (Throw (ExecaError "Command failed: vercel"), fs').

Definition example_world (clone_ok vercel_ok : bool) : WorkerTs.World :=
  {| WorkerTs.os_tmpdir := "/tmp";
     WorkerTs.mkdtemp_suffix := "a1B2c3";
     WorkerTs.execa := example_execa clone_ok vercel_ok;
     WorkerTs.writeFile_error := None;
     WorkerTs.Date_now := 1704067200000 |}.

(** Another attempt's workspace and a home directory, which stay. *)
Definition example_fs : gset string :=
  {["/home/deployer"; "/tmp/deploy-otis-zzzzzz"; "/tmp/deploy-otis-zzzzzz/.git"]}.

(** Two claims lost, then the third attempt fails. *)
Definition lost_then_failed : list Queue.Event :=
  [Queue.claim; Queue.claimExpired; Queue.claim; Queue.claimExpired;
   Queue.claim; Queue.acknowledgeFailure 1000 "deploy failed"].

(** Two failed attempts, then a deploy that succeeds. *)
Definition third_time_lucky : list Queue.Event :=
  [Queue.claim; Queue.acknowledgeFailure 1000 "clone failed";
   Queue.backoffElapsed 6000;
   Queue.claim; Queue.acknowledgeFailure 10000 "clone failed";
   Queue.backoffElapsed 20000;
   Queue.claim;
   Queue.acknowledgeSuccess {| Queue.url := "https://otis.vercel.app";
                               Queue.deploymentId := "deploy-1704067200000" |}].

(** A push request with the signature header [signature]. *)
Definition example_signed_push (signature : string) : Express.Request :=
  {| Express.headers :=
       {| Express.x_hub_signature_256 := Some signature;
          Express.x_github_event := Some "push" |};
     Express.params := {| Express.agent := ""; Express.jobId := "" |};
     Express.body :=
       {| Express.ref := Some "refs/heads/main";
          Express.repository := Some {| Express.name := "otis-seo-agent" |};
          Express.commits := Some [];
          Express.branch := None |} |}.

(** A request with a valid signature and the [push] event. *)
Definition authenticated_push (config : Config.DeployConfig)
    (hmac_sha256_hex : string -> string -> string)
    (JSON_stringify : Express.Body -> string) (req : Express.Request) : Prop :=
  IndexTs.verifySignature hmac_sha256_hex
    (JSON_stringify (Express.body req))
    (Express.x_hub_signature_256 (Express.headers req))
    (Config.webhook_secret config) = Normal true
  /\ Express.x_github_event (Express.headers req) = Some "push".

(** The run throws a [TypeError] and leaves the queue as it was. *)
Definition throws_TypeError (h : Js.M Queue.t Express.Response) (q : Queue.t) : Prop :=
  exists msg, h q = (Throw (TypeError msg), q).

(** A push body without [commits]. *)
Definition example_push_no_commits (gitref R : string) : Express.Request :=
  {| Express.headers :=
       {| Express.x_hub_signature_256 :=
            Some ("sha256=" +:+ example_hmac "dev-secret" "{}");
          Express.x_github_event := Some "push" |};
     Express.params := {| Express.agent := ""; Express.jobId := "" |};
     Express.body :=
       {| Express.ref := Some gitref;
          Express.repository := Some {| Express.name := R |};
          Express.commits := None;
          Express.branch := None |} |}.

(** A push trigger carrying git ref [gitref] and repository name [R],
    whatever else its body holds. *)
Definition carries_push (config : Config.DeployConfig)
    (hmac_sha256_hex : string -> string -> string)
    (JSON_stringify : Express.Body -> string)
    (req : Express.Request) (gitref R : string) : Prop :=
  authenticated_push config hmac_sha256_hex JSON_stringify req
  /\ Express.ref (Express.body req) = Some gitref
  /\ Express.repository (Express.body req) = Some {| Express.name := R |}.

(** The dispatch claim as the specification words it, for the handler of
    [src/index.ts]: every push trigger carrying a repository name and a
    branch is dispatched. *)
Definition push_dispatch_as_worded : Prop :=
  forall agents config hmac stringify now req q gitref R,
    carries_push config hmac stringify req gitref R ->
    push_dispatch agents
      (IndexTs.post_webhook_github agents config hmac stringify now req) q
      R (branch_of_ref gitref).

(* ===================================================================== *)
(** ** Further vocabulary                                                  *)
(* ===================================================================== *)

(** The header value the webhook accepts for a request: ['sha256='] and the
    hex HMAC of the serialised body under the configured secret. *)
Definition expected_signature (config : Config.DeployConfig)
    (hmac_sha256_hex : string -> string -> string)
    (JSON_stringify : Express.Body -> string) (req : Express.Request) : string :=
  "sha256=" +:+ hmac_sha256_hex (Config.webhook_secret config)
                  (JSON_stringify (Express.body req)).

Definition invalid_signature : Express.Response :=
  Express.res_status_json 401 (obj [("error", Some (JStr "Invalid signature"))]).

(** Everything that must hold of a request for the webhook to have
    enqueued: a valid signature, a push event, the body fields present, a
    matched agent that deploys the branch with auto-deploy on; and what was
    enqueued is one fresh job for that agent. *)
Definition push_enqueue_conditions (agents : list Config.Agent)
    (config : Config.DeployConfig)
    (hmac_sha256_hex : string -> string -> string)
    (JSON_stringify : Express.Body -> string)
    (req : Express.Request) (q q' : Queue.t)
    (r : Completion Express.Response) : Prop :=
  Express.x_hub_signature_256 (Express.headers req)
    = Some (expected_signature config hmac_sha256_hex JSON_stringify req)
  /\ Express.x_github_event (Express.headers req) = Some "push"
  /\ exists gitref R cs a job,
       Express.ref (Express.body req) = Some gitref
       /\ Express.repository (Express.body req) = Some {| Express.name := R |}
       /\ Express.commits (Express.body req) = Some cs
       /\ agent_for_repo agents R a
       /\ branch_of_ref gitref ∈ Config.branches a
       /\ Config.autoDeploy a = true
       /\ q' = enqueued q job
       /\ r = Normal (queued_push job a (branch_of_ref gitref))
       /\ Queue.state job = Queue.Waiting
       /\ Queue.attemptsMade job = 0
       /\ Queue.opts job = deploy_opts
       /\ Queue.agent (Queue.data job) = Config.name a
       /\ Queue.repo (Queue.data job) = R
       /\ Queue.branch (Queue.data job) = branch_of_ref gitref.

(** A push the checks let through: the matched agent deploys the branch
    and has auto-deploy on. *)
Definition push_accepted (agents : list Config.Agent) (R B : string) : Prop :=
  exists a, agent_for_repo agents R a
            /\ B ∈ Config.branches a /\ Config.autoDeploy a = true.

(** The id of the first commit of a push, when it has one that is not
    empty. *)
Definition first_commit_id (cs : list Express.Commit) : option string :=
  match cs with
  | c :: _ =>
      match Express.id c with
      | Some i => if String.eqb i "" then None else Some i
      | None => None
      end
  | [] => None
  end.

(** The job the example push on [main] for [otis] enqueues first. *)
Definition example_push_job : Queue.Job :=
  Queue.fresh "1" "deploy"
    {| Queue.agent := "otis"; Queue.repo := "otis-seo-agent"; Queue.branch := "main";
       Queue.commit := Some "abc123"; Queue.commitMessage := Some "fix";
       Queue.manual := None; Queue.timestamp := "2024-01-01T00:00:00.000Z" |}
    deploy_opts.












Definition first_char (s : string) : option Ascii.ascii :=
  match s with
  | EmptyString => None
  | String c _ => Some c
  end.

Fixpoint last_char (s : string) : option Ascii.ascii :=
  match s with
  | EmptyString => None
  | String c EmptyString => Some c
  | String _ s' => last_char s'
  end.




(* ===================================================================== *)
(** ** Properties                                                          *)
(* ===================================================================== *)

(** *** Arrays and strings *)

Lemma includes_elem_of (xs : list string) (x : string) :
  includes xs x = true <-> x ∈ xs.
Proof.
  unfold includes. rewrite existsb_exists. split.
  - intros (y & Hin & Heq). apply String.eqb_eq in Heq. subst y.
    by apply list_elem_of_In.
  - intros Hin. exists x. split; [by apply list_elem_of_In | apply String.eqb_refl].
Qed.

Lemma includes_not_elem_of (xs : list string) (x : string) :
  includes xs x = false <-> x ∉ xs.
Proof.
  rewrite <- includes_elem_of. destruct (includes xs x); split; congruence.
Qed.

Lemma find_first_such {A} (p : A -> bool) (xs : list A) (a : A) :
  find p xs = Some a <-> first_such p xs a.
Proof.
  split.
  - induction xs as [|x xs IH]; simpl; [discriminate|].
    destruct (p x) eqn:Hx.
    + intros [= ->]. exists [], xs. by repeat split.
    + intros Hf. destruct (IH Hf) as (l1 & l2 & -> & Hp & Hall).
      exists (x :: l1), l2. repeat split; [done|]. by constructor.
  - intros (l1 & l2 & -> & Hp & Hall).
    induction Hall as [|x l1 Hx _ IH]; simpl.
    + by rewrite Hp.
    + by rewrite Hx.
Qed.

Lemma find_none_forall {A} (p : A -> bool) (xs : list A) :
  find p xs = None <-> forall x, x ∈ xs -> p x = false.
Proof.
  split.
  - intros Hf x Hin. apply list_elem_of_In in Hin. by eapply find_none.
  - induction xs as [|x xs IH]; simpl; [done|].
    intros Hall. rewrite (Hall x) by constructor.
    apply IH. intros y Hy. apply Hall. by constructor.
Qed.

Lemma first_such_exists {A} (p : A -> bool) (xs : list A) (x : A) :
  x ∈ xs -> p x = true -> exists a, first_such p xs a.
Proof.
  intros Hin Hp. destruct (find p xs) as [a|] eqn:Hfind.
  - exists a. by apply find_first_such.
  - rewrite find_none_forall in Hfind. rewrite (Hfind x Hin) in Hp. discriminate.
Qed.

(** Either no agent has repository [R], or the webhook matches one. *)
Lemma agent_for_repo_total (agents : list Config.Agent) (R : string) :
  (forall a, a ∈ agents -> Config.repo a <> R)
  \/ exists a, agent_for_repo agents R a.
Proof.
  destruct (find (fun a => String.eqb (Config.repo a) R) agents) as [a|] eqn:Hfind.
  - right. exists a. by apply find_first_such.
  - left. intros a Ha. apply String.eqb_neq.
    rewrite find_none_forall in Hfind. by apply Hfind.
Qed.

Lemma no_agent_for_repo (agents : list Config.Agent) (R : string) :
  (forall a, a ∈ agents -> Config.repo a <> R) ->
  find (fun a => String.eqb (Config.repo a) R) agents = None.
Proof.
  intros H. apply find_none_forall. intros a Ha.
  apply String.eqb_neq. by apply H.
Qed.

Lemma no_agent_named (agents : list Config.Agent) (n : string) :
  (forall a, a ∈ agents -> Config.name a <> n) ->
  find (fun a => String.eqb (Config.name a) n) agents = None.
Proof.
  intros H. apply find_none_forall. intros a Ha.
  apply String.eqb_neq. by apply H.
Qed.

(** *** The Dispatcher: push triggers *)

Ltac run_handler :=
  unfold Js.bind, Js.lift, Js.ret, Queue.add, Queue.getJob, Queue.getState; simpl.

Lemma IndexTs_push_after_checks agents config hmac stringify now req q gitref R cs :
  push_trigger config hmac stringify req gitref R cs ->
  IndexTs.post_webhook_github agents config hmac stringify now req q =
  match find (fun a => String.eqb (Config.repo a) R) agents with
  | None => (Normal (IndexTs.ignored "unknown repo"), q)
  | Some a =>
      if negb (includes (Config.branches a) (branch_of_ref gitref)) then
        (Normal (IndexTs.ignored "branch not configured"), q)
      else if negb (Config.autoDeploy a) then
        (Normal (IndexTs.ignored "auto-deploy disabled"), q)
      else
        let job := Queue.fresh (pretty (S (Queue.counter q))) "deploy"
          {| Queue.agent := Config.name a; Queue.repo := R;
             Queue.branch := branch_of_ref gitref;
             Queue.commit := Some (or_else (head cs ≫= Express.id) "unknown");
             Queue.commitMessage := Some (or_else (head cs ≫= Express.message) "");
             Queue.manual := None; Queue.timestamp := now |} deploy_opts in
        (Normal (queued_push job a (branch_of_ref gitref)), enqueued q job)
  end.
Proof.
  intros (Hsig & Hev & Href & Hrepo & Hcs).
  unfold IndexTs.post_webhook_github. run_handler.
  rewrite Hsig, Hev, Href, Hrepo, Hcs. simpl.
  destruct (find _ agents) as [a|]; [|done].
  destruct (includes _ _); simpl; [|done].
  by destruct (Config.autoDeploy a).
Qed.

Lemma ServerJs_push_after_checks agents config hmac stringify now req q gitref R cs :
  push_trigger config hmac stringify req gitref R cs ->
  ServerJs.post_webhook_github agents config hmac stringify now req q =
  match find (fun a => String.eqb (Config.repo a) R) agents with
  | None => (Normal (IndexTs.ignored "unknown repo"), q)
  | Some a =>
      if negb (includes (Config.branches a) (branch_of_ref gitref)) then
        (Normal (IndexTs.ignored "branch not configured"), q)
      else if negb (Config.autoDeploy a) then
        (Normal (IndexTs.ignored "auto-deploy disabled"), q)
      else
        let job := Queue.fresh (pretty (S (Queue.counter q))) "deploy"
          {| Queue.agent := Config.name a; Queue.repo := R;
             Queue.branch := branch_of_ref gitref;
             Queue.commit := Some (or_else (head cs ≫= Express.id) "unknown");
             Queue.commitMessage := None;
             Queue.manual := None; Queue.timestamp := now |} deploy_opts in
        (Normal (queued_push job a (branch_of_ref gitref)), enqueued q job)
  end.
Proof.
  intros (Hsig & Hev & Href & Hrepo & Hcs).
  unfold ServerJs.post_webhook_github. run_handler.
  change (ServerJs.verifySignature hmac) with (IndexTs.verifySignature hmac).
  rewrite Hsig, Hev, Href, Hrepo, Hcs. simpl.
  destruct (find _ agents) as [a|]; [|done].
  destruct (includes _ _); simpl; [|done].
  by destruct (Config.autoDeploy a).
Qed.

Lemma push_dispatch_of_checks agents (h : Js.M Queue.t Express.Response) q R B
    (mk : Config.Agent -> Queue.DeployJob) :
  (forall a, Queue.agent (mk a) = Config.name a
             /\ Queue.repo (mk a) = R /\ Queue.branch (mk a) = B) ->
  h q =
    match find (fun a => String.eqb (Config.repo a) R) agents with
    | None => (Normal (IndexTs.ignored "unknown repo"), q)
    | Some a =>
        if negb (includes (Config.branches a) B) then
          (Normal (IndexTs.ignored "branch not configured"), q)
        else if negb (Config.autoDeploy a) then
          (Normal (IndexTs.ignored "auto-deploy disabled"), q)
        else
          let job := Queue.fresh (pretty (S (Queue.counter q))) "deploy" (mk a) deploy_opts in
          (Normal (queued_push job a B), enqueued q job)
    end ->
  push_dispatch agents h q R B.
Proof.
  intros Hmk Hh. split.
  - intros Hno. by rewrite Hh, no_agent_for_repo.
  - intros a Ha. apply find_first_such in Ha. rewrite Ha in Hh.
    repeat split.
    + intros HB. apply includes_not_elem_of in HB. by rewrite Hh, HB.
    + intros HB Hauto. apply includes_elem_of in HB. by rewrite Hh, HB, Hauto.
    + intros HB Hauto. apply includes_elem_of in HB.
      rewrite HB, Hauto in Hh. simpl in Hh.
      eexists. split; [exact Hh|]. simpl. by destruct (Hmk a) as (? & ? & ?).
Qed.

Lemma push_dispatch_both agents config hmac stringify now req q gitref R cs :
  push_trigger config hmac stringify req gitref R cs ->
  push_dispatch agents
    (IndexTs.post_webhook_github agents config hmac stringify now req) q
    R (branch_of_ref gitref)
  /\ push_dispatch agents
       (ServerJs.post_webhook_github agents config hmac stringify now req) q
       R (branch_of_ref gitref).
Proof.
  intros Hpush. split.
  - eapply push_dispatch_of_checks;
      [|by apply (IndexTs_push_after_checks _ _ _ _ _ _ _ _ _ cs)].
    by intros a.
  - eapply push_dispatch_of_checks;
      [|by apply (ServerJs_push_after_checks _ _ _ _ _ _ _ _ _ cs)].
    by intros a.
Qed.

Lemma somebody_else_unregistered :
  forall a, a ∈ Config.agents -> Config.repo a <> "somebody-else".
Proof.
  intros a Ha. unfold Config.agents in Ha.
  repeat (apply elem_of_cons in Ha as [-> | Ha]; [by simpl|]).
  by apply elem_of_nil in Ha.
Qed.

(** The claim as worded fails on a push whose body has no [commits]: for
    an unknown repository [src/index.ts] throws where the claim has the
    "unknown agent" outcome (it reads [commits.length] before the lookup),
    and for a push that passes the three checks the JavaScript copy throws
    where the claim has a job enqueued (it reads [commits[0]]). *)
Lemma C1_push_without_commits_throws :
  carries_push example_config example_hmac example_stringify
    (example_push_no_commits "refs/heads/main" "somebody-else")
    "refs/heads/main" "somebody-else"
  /\ IndexTs.post_webhook_github Config.agents example_config example_hmac
       example_stringify "2024-01-01T00:00:00.000Z"
       (example_push_no_commits "refs/heads/main" "somebody-else") Queue.empty
     = (Throw (TypeError "Cannot read properties of undefined (length)"), Queue.empty)
  /\ ServerJs.post_webhook_github Config.agents example_config example_hmac
       example_stringify "2024-01-01T00:00:00.000Z"
       (example_push_no_commits "refs/heads/main" "otis-seo-agent") Queue.empty
     = (Throw (TypeError "Cannot read properties of undefined (0)"), Queue.empty)
  /\ ~ push_dispatch_as_worded.
Proof.
  assert (Hpush : carries_push example_config example_hmac example_stringify
            (example_push_no_commits "refs/heads/main" "somebody-else")
            "refs/heads/main" "somebody-else") by (repeat split; reflexivity).
  split; [exact Hpush|]. split; [reflexivity|]. split; [reflexivity|].
  intros H.
  destruct (H Config.agents example_config example_hmac example_stringify
              "2024-01-01T00:00:00.000Z"
              (example_push_no_commits "refs/heads/main" "somebody-else")
              Queue.empty "refs/heads/main" "somebody-else" Hpush) as [Hunknown _].
  specialize (Hunknown somebody_else_unregistered). discriminate Hunknown.
Qed.

(** C1, amended.  For every authenticated push trigger carrying repository
    name [R], branch [B] (the git ref with [refs/heads/] removed) and a
    [commits] list, both copies of
    the webhook handler apply the checks in order and stop at the first that
    fails: no registered agent with repository [R] gives the "unknown repo"
    outcome; otherwise, for the matched agent, [B] outside its branches
    gives "branch not configured", whatever its auto-deploy flag; otherwise
    auto-deploy off gives "auto-deploy disabled"; the queue is unchanged in
    these three cases.  Otherwise exactly one job is appended to the queue,
    with [attemptsMade = 0] and state Waiting. *)
Theorem C1_push_dispatch_order agents config hmac stringify now req q gitref R cs :
  push_trigger config hmac stringify req gitref R cs ->
  push_dispatch agents
    (IndexTs.post_webhook_github agents config hmac stringify now req) q
    R (branch_of_ref gitref)
  /\ push_dispatch agents
       (ServerJs.post_webhook_github agents config hmac stringify now req) q
       R (branch_of_ref gitref).
Proof. apply push_dispatch_both. Qed.

Lemma C1_push_dispatch_order_witness :
  push_trigger example_config example_hmac example_stringify
    (example_push "refs/heads/main" "otis-seo-agent")
    "refs/heads/main" "otis-seo-agent"
    [{| Express.id := Some "abc123"; Express.message := Some "fix" |}]
  /\ push_dispatch Config.agents
       (IndexTs.post_webhook_github Config.agents example_config example_hmac
          example_stringify "2024-01-01T00:00:00.000Z"
          (example_push "refs/heads/main" "otis-seo-agent"))
       Queue.empty "otis-seo-agent" "main".
Proof.
  assert (Hpush : push_trigger example_config example_hmac example_stringify
            (example_push "refs/heads/main" "otis-seo-agent")
            "refs/heads/main" "otis-seo-agent"
            [{| Express.id := Some "abc123"; Express.message := Some "fix" |}]).
  { repeat split; reflexivity. }
  split; [exact Hpush|].
  exact (proj1 (C1_push_dispatch_order Config.agents example_config example_hmac
                  example_stringify "2024-01-01T00:00:00.000Z"
                  (example_push "refs/heads/main" "otis-seo-agent")
                  Queue.empty "refs/heads/main" "otis-seo-agent" _ Hpush)).
Defined.

(** *** The Dispatcher: manual triggers *)

Lemma manual_known agents now req q a :
  agent_named agents (Express.agent (Express.params req)) a ->
  manual_enqueued (IndexTs.post_deploy_agent agents now req) q a
    (or_else (Express.branch (Express.body req)) "main")
  /\ manual_enqueued (ServerJs.post_deploy_agent agents now req) q a
       (or_else (Express.branch (Express.body req)) "main").
Proof.
  intros Ha. apply find_first_such in Ha.
  split;
    exists (Queue.fresh (pretty (S (Queue.counter q))) "deploy"
              {| Queue.agent := Config.name a;
                 Queue.repo := Config.repo a;
                 Queue.branch := or_else (Express.branch (Express.body req)) "main";
                 Queue.commit := None;
                 Queue.commitMessage := None;
                 Queue.manual := Some true;
                 Queue.timestamp := now |} deploy_opts);
    (split; [unfold IndexTs.post_deploy_agent, ServerJs.post_deploy_agent;
             rewrite Ha; run_handler; reflexivity | by simpl]).
Qed.

Lemma manual_unknown agents now req q :
  (forall a, a ∈ agents -> Config.name a <> Express.agent (Express.params req)) ->
  IndexTs.post_deploy_agent agents now req q =
    (Normal (Express.res_status_json 404 (obj [("error", Some (JStr "Agent not found"))])), q)
  /\ ServerJs.post_deploy_agent agents now req q =
       (Normal (Express.res_status_json 404 (obj [("error", Some (JStr "Agent not found"))])), q).
Proof.
  intros Hno. unfold IndexTs.post_deploy_agent, ServerJs.post_deploy_agent.
  by rewrite (no_agent_named _ _ Hno).
Qed.

(** C7.  For every manual trigger that names a registered agent and
    carries an explicit branch [b], both copies of the handler append
    exactly one fresh job to the queue, for the agent [a] the name
    resolves to, whatever [a]'s branches and auto-deploy flag are; the job's
    branch is [b] (['main'] when [b] is the empty string). *)
Theorem C7_manual_bypasses_flags agents now req q n b a0 :
  manual_trigger req n (Some b) ->
  a0 ∈ agents ->
  Config.name a0 = n ->
  exists a,
    agent_named agents n a
    /\ manual_enqueued (IndexTs.post_deploy_agent agents now req) q a
         (if String.eqb b "" then "main" else b)
    /\ manual_enqueued (ServerJs.post_deploy_agent agents now req) q a
         (if String.eqb b "" then "main" else b).
Proof.
  intros [Hn Hb] Hin Hname.
  destruct (first_such_exists (fun a => String.eqb (Config.name a) n) agents a0 Hin)
    as [a Ha]; [by apply String.eqb_eq|].
  exists a. split; [exact Ha|]. rewrite <- Hn in Ha.
  pose proof (manual_known agents now req q a Ha) as H.
  by rewrite Hb in H.
Qed.

(** Agent [harold] with auto-deploy off and only [main] allowed: a manual
    trigger for branch [release] is enqueued all the same. *)
Lemma C7_manual_bypasses_flags_witness :
  manual_trigger (example_manual "harold" (Some "release")) "harold" (Some "release")
  /\ exists a,
       agent_named locked_registry "harold" a
       /\ manual_enqueued
            (IndexTs.post_deploy_agent locked_registry "2024-01-01T00:00:00.000Z"
               (example_manual "harold" (Some "release")))
            Queue.empty a "release".
Proof.
  assert (Ht : manual_trigger (example_manual "harold" (Some "release"))
                 "harold" (Some "release")) by (split; reflexivity).
  split; [exact Ht|].
  destruct (C7_manual_bypasses_flags locked_registry "2024-01-01T00:00:00.000Z"
              (example_manual "harold" (Some "release")) Queue.empty
              "harold" "release"
              {| Config.name := "harold"; Config.repo := "harold-finance-agent";
                 Config.vercelProjectId := ""; Config.autoDeploy := false;
                 Config.branches := ["main"] |}
              Ht (list_elem_of_here _ _) eq_refl) as (a & Ha & H & _).
  by exists a.
Defined.

(** C9.  For every manual trigger that names a registered agent and whose
    body has no [branch] field, the job both copies of the handler enqueue
    has branch ['main'], whatever the agent's branches are. *)
Theorem C9_manual_default_branch agents now req q n a0 :
  manual_trigger req n None ->
  a0 ∈ agents ->
  Config.name a0 = n ->
  exists a,
    agent_named agents n a
    /\ manual_enqueued (IndexTs.post_deploy_agent agents now req) q a "main"
    /\ manual_enqueued (ServerJs.post_deploy_agent agents now req) q a "main".
Proof.
  intros [Hn Hb] Hin Hname.
  destruct (first_such_exists (fun a => String.eqb (Config.name a) n) agents a0 Hin)
    as [a Ha]; [by apply String.eqb_eq|].
  exists a. split; [exact Ha|]. rewrite <- Hn in Ha.
  pose proof (manual_known agents now req q a Ha) as H.
  by rewrite Hb in H.
Qed.

(** An agent that deploys only [release]: the default is ['main'] all the
    same. *)
Lemma C9_manual_default_branch_witness :
  manual_trigger (example_manual "otis" None) "otis" None
  /\ exists a,
       agent_named release_registry "otis" a
       /\ manual_enqueued
            (IndexTs.post_deploy_agent release_registry "2024-01-01T00:00:00.000Z"
               (example_manual "otis" None))
            Queue.empty a "main".
Proof.
  assert (Ht : manual_trigger (example_manual "otis" None) "otis" None)
    by (split; reflexivity).
  split; [exact Ht|].
  destruct (C9_manual_default_branch release_registry "2024-01-01T00:00:00.000Z"
              (example_manual "otis" None) Queue.empty "otis"
              {| Config.name := "otis"; Config.repo := "otis-seo-agent";
                 Config.vercelProjectId := ""; Config.autoDeploy := true;
                 Config.branches := ["release"] |}
              Ht (list_elem_of_here _ _) eq_refl) as (a & Ha & H & _).
  by exists a.
Defined.

(** *** Rejections *)

Lemma ignored_reported (reason : string) :
  Express.status (IndexTs.ignored reason) = 200
  /\ is_success (IndexTs.ignored reason) = true
  /\ explicit_decision (IndexTs.ignored reason) reason.
Proof. by repeat split. Qed.

Lemma push_rejection_of_dispatch agents (h : Js.M Queue.t Express.Response) q R B :
  push_dispatch agents h q R B ->
  push_rejected agents R B ->
  push_rejection_reported h q.
Proof.
  intros [Hnone Hsome] [Hno | (a & Ha & Hrej)].
  - exists (IndexTs.ignored "unknown repo"), "unknown repo".
    split; [by apply Hnone|]. destruct (ignored_reported "unknown repo") as (? & ? & ?).
    repeat split; try done. unfold push_reasons. by repeat constructor.
  - destruct (Hsome a Ha) as (Hbranch & Hauto & _).
    destruct (decide (B ∈ Config.branches a)) as [Hin | Hnin].
    + destruct Hrej as [Hnin | Hoff]; [done|].
      exists (IndexTs.ignored "auto-deploy disabled"), "auto-deploy disabled".
      split; [by apply Hauto|].
      repeat split; try done. unfold push_reasons. by repeat constructor.
    + exists (IndexTs.ignored "branch not configured"), "branch not configured".
      split; [by apply Hbranch|].
      repeat split; try done. unfold push_reasons. by repeat constructor.
Qed.

Lemma nobody_unregistered :
  forall a, a ∈ Config.agents -> Config.name a <> "nobody".
Proof.
  intros a Ha. unfold Config.agents in Ha.
  repeat (apply elem_of_cons in Ha as [-> | Ha]; [by simpl|]).
  by apply elem_of_nil in Ha.
Qed.

(** The claim as worded fails: a manual trigger for an agent that is not
    in the registry is answered 404. *)
Lemma C6_manual_unknown_is_404 :
  IndexTs.post_deploy_agent Config.agents "2024-01-01T00:00:00.000Z"
    (example_manual "nobody" None) Queue.empty
  = (Normal (Express.res_status_json 404
               (obj [("error", Some (JStr "Agent not found"))])), Queue.empty)
  /\ ~ manual_rejection_is_success.
Proof.
  split; [reflexivity|].
  intros H.
  destruct (H Config.agents "2024-01-01T00:00:00.000Z"
              (example_manual "nobody" None) Queue.empty nobody_unregistered)
    as (r & Hr & Hok).
  vm_compute in Hr. injection Hr as <-. by vm_compute in Hok.
Qed.

Lemma ServerJs_push_no_commits agents config hmac stringify now req q gitref R :
  authenticated_push config hmac stringify req ->
  Express.ref (Express.body req) = Some gitref ->
  Express.repository (Express.body req) = Some {| Express.name := R |} ->
  Express.commits (Express.body req) = None ->
  ServerJs.post_webhook_github agents config hmac stringify now req q =
  match find (fun a => String.eqb (Config.repo a) R) agents with
  | None => (Normal (IndexTs.ignored "unknown repo"), q)
  | Some a =>
      if negb (includes (Config.branches a) (branch_of_ref gitref)) then
        (Normal (IndexTs.ignored "branch not configured"), q)
      else if negb (Config.autoDeploy a) then
        (Normal (IndexTs.ignored "auto-deploy disabled"), q)
      else (Throw (TypeError "Cannot read properties of undefined (0)"), q)
  end.
Proof.
  intros [Hsig Hev] Href Hrepo Hcs.
  unfold ServerJs.post_webhook_github. run_handler.
  change (ServerJs.verifySignature hmac) with (IndexTs.verifySignature hmac).
  rewrite Hsig, Hev, Href, Hrepo, Hcs. simpl.
  destruct (find _ agents) as [a|]; [|done].
  destruct (includes _ _); simpl; [|done].
  by destruct (Config.autoDeploy a).
Qed.

Lemma ServerJs_rejection_no_commits agents config hmac stringify now req q gitref R :
  authenticated_push config hmac stringify req ->
  Express.ref (Express.body req) = Some gitref ->
  Express.repository (Express.body req) = Some {| Express.name := R |} ->
  Express.commits (Express.body req) = None ->
  push_rejected agents R (branch_of_ref gitref) ->
  push_rejection_reported
    (ServerJs.post_webhook_github agents config hmac stringify now req) q.
Proof.
  intros Hauth Href Hrepo Hcs Hrej.
  pose proof (ServerJs_push_no_commits agents config hmac stringify now req q
                gitref R Hauth Href Hrepo Hcs) as Hrun.
  destruct Hrej as [Hno | (a & Ha & Hwhy)].
  - rewrite (no_agent_for_repo _ _ Hno) in Hrun.
    exists (IndexTs.ignored "unknown repo"), "unknown repo".
    split; [exact Hrun|]. repeat split; try done.
    unfold push_reasons. by repeat constructor.
  - apply find_first_such in Ha. rewrite Ha in Hrun.
    destruct (includes (Config.branches a) (branch_of_ref gitref)) eqn:Hinc;
      simpl in Hrun.
    + destruct Hwhy as [Hnin | Hoff].
      { apply includes_elem_of in Hinc. done. }
      rewrite Hoff in Hrun. simpl in Hrun.
      exists (IndexTs.ignored "auto-deploy disabled"), "auto-deploy disabled".
      split; [exact Hrun|]. repeat split; try done.
      unfold push_reasons. by repeat constructor.
    + exists (IndexTs.ignored "branch not configured"), "branch not configured".
      split; [exact Hrun|]. repeat split; try done.
      unfold push_reasons. by repeat constructor.
Qed.

(** C6, amended.  Every rejection of a push trigger that carries a
    [commits] list (unknown repository, branch not configured, auto-deploy
    disabled) is answered, by both copies of the webhook handler, with
    status 200 and an explicit [{ ignored: true, reason }], and leaves the
    queue as it was; the JavaScript copy answers the rejections in the same
    way when the [commits] list is missing.  A manual trigger that names no
    registered agent is answered, by both copies of the handler, with
    status 404 and [{ error: 'Agent not found' }], and leaves the queue as
    it was. *)
Theorem C6_rejections_reported agents config hmac stringify now req q :
  (forall gitref R cs,
     push_trigger config hmac stringify req gitref R cs ->
     push_rejected agents R (branch_of_ref gitref) ->
     push_rejection_reported
       (IndexTs.post_webhook_github agents config hmac stringify now req) q
     /\ push_rejection_reported
          (ServerJs.post_webhook_github agents config hmac stringify now req) q)
  /\ (forall gitref R,
        carries_push config hmac stringify req gitref R ->
        Express.commits (Express.body req) = None ->
        push_rejected agents R (branch_of_ref gitref) ->
        push_rejection_reported
          (ServerJs.post_webhook_github agents config hmac stringify now req) q)
  /\ ((forall a, a ∈ agents -> Config.name a <> Express.agent (Express.params req)) ->
      manual_rejection_reported (IndexTs.post_deploy_agent agents now req) q
      /\ manual_rejection_reported (ServerJs.post_deploy_agent agents now req) q).
Proof.
  split; [|split].
  - intros gitref R cs Hpush Hrej.
    destruct (push_dispatch_both agents config hmac stringify now req q
                gitref R cs Hpush) as [H1 H2].
    split; by eapply push_rejection_of_dispatch.
  - intros gitref R (Hauth & Href & Hrepo) Hcs Hrej.
    by apply (ServerJs_rejection_no_commits agents config hmac stringify now req q
                gitref R Hauth Href Hrepo Hcs).
  - intros Hno. destruct (manual_unknown agents now req q Hno) as [H1 H2].
    split; eexists; (split; [eassumption | by repeat split]).
Qed.

Lemma otis_rejects_staging : push_rejected Config.agents "otis-seo-agent" "staging".
Proof.
  right. exists {| Config.name := "otis"; Config.repo := "otis-seo-agent";
                   Config.vercelProjectId := ""; Config.autoDeploy := true;
                   Config.branches := ["main"] |}.
  split.
  - apply find_first_such. reflexivity.
  - left. intros Hin. apply elem_of_cons in Hin as [Hin | Hin];
      [discriminate Hin | by apply elem_of_nil in Hin].
Qed.

(** A push on [staging] for [otis], with and without [commits], and a
    manual trigger for an agent that does not exist. *)
Lemma C6_rejections_reported_witness :
  (push_rejection_reported
     (IndexTs.post_webhook_github Config.agents example_config example_hmac
        example_stringify "2024-01-01T00:00:00.000Z"
        (example_push "refs/heads/staging" "otis-seo-agent")) Queue.empty
   /\ push_rejection_reported
        (ServerJs.post_webhook_github Config.agents example_config example_hmac
           example_stringify "2024-01-01T00:00:00.000Z"
           (example_push "refs/heads/staging" "otis-seo-agent")) Queue.empty)
  /\ push_rejection_reported
       (ServerJs.post_webhook_github Config.agents example_config example_hmac
          example_stringify "2024-01-01T00:00:00.000Z"
          (example_push_no_commits "refs/heads/staging" "otis-seo-agent")) Queue.empty
  /\ (manual_rejection_reported
        (IndexTs.post_deploy_agent Config.agents "2024-01-01T00:00:00.000Z"
           (example_manual "nobody" None)) Queue.empty
      /\ manual_rejection_reported
           (ServerJs.post_deploy_agent Config.agents "2024-01-01T00:00:00.000Z"
              (example_manual "nobody" None)) Queue.empty).
Proof.
  assert (Hpush : push_trigger example_config example_hmac example_stringify
            (example_push "refs/heads/staging" "otis-seo-agent")
            "refs/heads/staging" "otis-seo-agent"
            [{| Express.id := Some "abc123"; Express.message := Some "fix" |}])
    by (repeat split; reflexivity).
  assert (Hcarries : carries_push example_config example_hmac example_stringify
            (example_push_no_commits "refs/heads/staging" "otis-seo-agent")
            "refs/heads/staging" "otis-seo-agent")
    by (repeat split; reflexivity).
  split; [|split].
  - exact (proj1 (C6_rejections_reported Config.agents example_config example_hmac
                    example_stringify "2024-01-01T00:00:00.000Z"
                    (example_push "refs/heads/staging" "otis-seo-agent") Queue.empty)
             "refs/heads/staging" "otis-seo-agent" _ Hpush otis_rejects_staging).
  - exact (proj1 (proj2 (C6_rejections_reported Config.agents example_config
                           example_hmac example_stringify "2024-01-01T00:00:00.000Z"
                           (example_push_no_commits "refs/heads/staging" "otis-seo-agent")
                           Queue.empty))
             "refs/heads/staging" "otis-seo-agent" Hcarries eq_refl
             otis_rejects_staging).
  - exact (proj2 (proj2 (C6_rejections_reported Config.agents example_config
                           example_hmac example_stringify "2024-01-01T00:00:00.000Z"
                           (example_manual "nobody" None) Queue.empty))
             nobody_unregistered).
Defined.

Ltac case_handler H :=
  repeat match type of H with
         | context [match ?x with _ => _ end] => destruct x eqn:?; simpl in H |- *
         | context [if ?x then _ else _] => destruct x eqn:?; simpl in H |- *
         end.

Lemma webhook_idempotent_IndexTs agents config hmac stringify :
  idempotent_on_rejection (IndexTs.post_webhook_github agents config hmac stringify).
Proof.
  intros now1 now2 req q r q1 code Hrun Hcode.
  unfold IndexTs.post_webhook_github in *.
  unfold Js.bind, Js.lift, Js.ret, Queue.add in *. simpl in *.
  case_handler Hrun; try discriminate;
    injection Hrun as <- <-; try discriminate; by repeat split.
Qed.

Lemma webhook_idempotent_ServerJs agents config hmac stringify :
  idempotent_on_rejection (ServerJs.post_webhook_github agents config hmac stringify).
Proof.
  intros now1 now2 req q r q1 code Hrun Hcode.
  unfold ServerJs.post_webhook_github in *.
  unfold Js.bind, Js.lift, Js.ret, Queue.add in *. simpl in *.
  case_handler Hrun; try discriminate;
    injection Hrun as <- <-; try discriminate; by repeat split.
Qed.

Lemma manual_idempotent agents :
  idempotent_on_rejection (IndexTs.post_deploy_agent agents)
  /\ idempotent_on_rejection (ServerJs.post_deploy_agent agents).
Proof.
  split; intros now1 now2 req q r q1 code Hrun Hcode;
    unfold IndexTs.post_deploy_agent, ServerJs.post_deploy_agent in *;
    unfold Js.bind, Js.lift, Js.ret, Queue.add in *; simpl in *;
    case_handler Hrun; try discriminate;
    injection Hrun as <- <-; try discriminate; by repeat split.
Qed.

(** C8.  The Dispatcher decision is idempotent on rejected triggers: when a
    run of a trigger handler (webhook or manual, either copy) on a request
    ends in a rejection, the queue is as before the run, and a second run on
    the same request, at any later time and against the same registry, gives
    the same response, so the same outcome code, and again leaves the queue
    unchanged. *)
Theorem C8_rejection_idempotent agents config hmac stringify :
  idempotent_on_rejection (IndexTs.post_webhook_github agents config hmac stringify)
  /\ idempotent_on_rejection (ServerJs.post_webhook_github agents config hmac stringify)
  /\ idempotent_on_rejection (IndexTs.post_deploy_agent agents)
  /\ idempotent_on_rejection (ServerJs.post_deploy_agent agents).
Proof.
  split; [apply webhook_idempotent_IndexTs|].
  split; [apply webhook_idempotent_ServerJs|].
  apply manual_idempotent.
Qed.

(** The scenario of a push on [staging] for an agent that deploys [main]:
    rejected twice with the same code, the queue untouched. *)
Lemma C8_rejection_idempotent_witness :
  IndexTs.post_webhook_github Config.agents example_config example_hmac
    example_stringify "2024-01-01T00:00:00.000Z"
    (example_push "refs/heads/staging" "otis-seo-agent") Queue.empty
  = (Normal (IndexTs.ignored "branch not configured"), Queue.empty)
  /\ rejection_code (IndexTs.ignored "branch not configured") = Some "branch not configured"
  /\ IndexTs.post_webhook_github Config.agents example_config example_hmac
       example_stringify "2024-01-02T00:00:00.000Z"
       (example_push "refs/heads/staging" "otis-seo-agent") Queue.empty
     = (Normal (IndexTs.ignored "branch not configured"), Queue.empty).
Proof.
  assert (Hrun : IndexTs.post_webhook_github Config.agents example_config example_hmac
            example_stringify "2024-01-01T00:00:00.000Z"
            (example_push "refs/heads/staging" "otis-seo-agent") Queue.empty
          = (Normal (IndexTs.ignored "branch not configured"), Queue.empty))
    by reflexivity.
  assert (Hcode : rejection_code (IndexTs.ignored "branch not configured")
                  = Some "branch not configured") by reflexivity.
  split; [exact Hrun|]. split; [exact Hcode|].
  exact (proj1 (proj2 (proj1 (C8_rejection_idempotent Config.agents example_config
                                example_hmac example_stringify)
                         "2024-01-01T00:00:00.000Z" "2024-01-02T00:00:00.000Z"
                         (example_push "refs/heads/staging" "otis-seo-agent")
                         Queue.empty _ _ _ Hrun Hcode))).
Defined.

(** *** Signature verification *)

Lemma length_list_ascii_of_string (s : string) :
  length (String.list_ascii_of_string s) = String.length s.
Proof. induction s as [|c s IH]; simpl; congruence. Qed.

Lemma verifySignature_throws hmac payload signature secret :
  malformed_signature signature ("sha256=" +:+ hmac secret payload) ->
  exists e, IndexTs.verifySignature hmac payload signature secret = Throw e
            /\ ServerJs.verifySignature hmac payload signature secret = Throw e.
Proof.
  intros [-> | (s & -> & Hlen)].
  - by eexists.
  - eexists. unfold IndexTs.verifySignature, ServerJs.verifySignature.
    cbn [Crypto.Buffer_from]. unfold Crypto.timingSafeEqual.
    rewrite !length_list_ascii_of_string.
    apply Nat.eqb_neq in Hlen. by rewrite Hlen.
Qed.

(** C10.  For every webhook request whose [x-hub-signature-256] header is
    absent, or whose header value has a byte length other than that of the
    expected ['sha256=' + hex digest] string, [verifySignature] throws, and
    with it the webhook handler (either copy): the request ends in an
    exception, not in the 401 response, and the queue is untouched. *)
Theorem C10_malformed_signature_throws agents config hmac stringify now req q :
  malformed_signature
    (Express.x_hub_signature_256 (Express.headers req))
    ("sha256=" +:+ hmac (Config.webhook_secret config)
                     (stringify (Express.body req))) ->
  exists e,
    IndexTs.verifySignature hmac (stringify (Express.body req))
      (Express.x_hub_signature_256 (Express.headers req))
      (Config.webhook_secret config) = Throw e
    /\ IndexTs.post_webhook_github agents config hmac stringify now req q = (Throw e, q)
    /\ ServerJs.post_webhook_github agents config hmac stringify now req q = (Throw e, q).
Proof.
  intros Hbad.
  destruct (verifySignature_throws hmac _ _ _ Hbad) as (e & H1 & H2).
  exists e. split; [exact H1|].
  unfold IndexTs.post_webhook_github, ServerJs.post_webhook_github.
  unfold Js.bind, Js.lift. by rewrite H1, H2.
Qed.

Lemma C10_malformed_signature_throws_witness :
  malformed_signature
    (Express.x_hub_signature_256 (Express.headers example_unsigned_push))
    ("sha256=" +:+ example_hmac (Config.webhook_secret example_config)
                     (example_stringify (Express.body example_unsigned_push)))
  /\ exists e,
       IndexTs.post_webhook_github Config.agents example_config example_hmac
         example_stringify "2024-01-01T00:00:00.000Z" example_unsigned_push Queue.empty
       = (Throw e, Queue.empty).
Proof.
  assert (Hbad : malformed_signature
            (Express.x_hub_signature_256 (Express.headers example_unsigned_push))
            ("sha256=" +:+ example_hmac (Config.webhook_secret example_config)
                             (example_stringify (Express.body example_unsigned_push))))
    by (left; reflexivity).
  split; [exact Hbad|].
  destruct (C10_malformed_signature_throws Config.agents example_config example_hmac
              example_stringify "2024-01-01T00:00:00.000Z" example_unsigned_push
              Queue.empty Hbad) as (e & _ & He & _).
  by exists e.
Defined.

(** *** The retry policy *)

Lemma step_job_inv ev j j' :
  job_inv j -> Queue.step ev j = Some j' -> job_inv j'.
Proof.
  intros [Hopts Hact] Hstep. unfold Queue.step in Hstep.
  destruct ev, (Queue.state j) eqn:Hst; try discriminate; simpl in Hstep.
  all: repeat match type of Hstep with
              | context [if ?b then _ else _] => destruct b
              end; try discriminate.
  all: injection Hstep as <-; split; simpl; try done; try lia.
Qed.

Lemma run_job_inv evs j j' :
  job_inv j -> Queue.run evs j = Some j' -> job_inv j'.
Proof.
  revert j. induction evs as [|ev evs IH]; simpl; intros j Hinv Hrun.
  - by injection Hrun as <-.
  - destruct (Queue.step ev j) as [j1|] eqn:Hstep; [|discriminate].
    eapply IH; [|exact Hrun]. by eapply step_job_inv.
Qed.

Lemma history_job_inv jid nm d evs j : history jid nm d evs j -> job_inv j.
Proof. intros H. eapply run_job_inv; [|exact H]. by split. Qed.

(** C2.  For every job the server enqueued, when an attempt fails while
    attempts remain (the job goes to DelayedRetry), the delay from the
    failure to the moment the job can be Waiting, and so claimable, again is
    [5000ms * 2^(attemptsMade - 1)]: 5000ms when the first attempt failed
    (before the 2nd attempt), 10000ms when the second failed (before the
    3rd), and these are the only cases.  Until then the job can neither be
    claimed nor leave DelayedRetry. *)
Theorem C2_backoff_delay jid nm d evs j now reason j' :
  history jid nm d evs j ->
  Queue.step (Queue.acknowledgeFailure now reason) j = Some j' ->
  Queue.state j' = Queue.DelayedRetry ->
  let D := (Queue.availableAt j' - now)%Z in
  D = (5000 * 2 ^ (Z.of_nat (Queue.attemptsMade j) - 1))%Z
  /\ ((Queue.attemptsMade j = 1 /\ D = 5000%Z)
      \/ (Queue.attemptsMade j = 2 /\ D = 10000%Z))
  /\ Queue.step Queue.claim j' = None
  /\ (forall t, is_Some (Queue.step (Queue.backoffElapsed t) j') <-> (now + D <= t)%Z)
  /\ (forall t j'', Queue.step (Queue.backoffElapsed t) j' = Some j'' ->
        Queue.state j'' = Queue.Waiting
        /\ Queue.attemptsMade j'' = Queue.attemptsMade j).
Proof.
  intros Hhist Hstep Hst D.
  destruct (history_job_inv _ _ _ _ _ Hhist) as [Hopts Hact].
  unfold Queue.step in Hstep.
  destruct (Queue.state j) eqn:Hj; try discriminate.
  rewrite Hopts in Hstep. simpl in Hstep.
  destruct (Queue.attemptsMade j <? 3) eqn:Hlt;
    injection Hstep as <-; [|discriminate].
  apply Nat.ltb_lt in Hlt. specialize (Hact eq_refl).
  assert (HD : D = (5000 * 2 ^ (Z.of_nat (Queue.attemptsMade j) - 1))%Z).
  { unfold D. simpl. unfold Queue.backoffDelay. simpl. lia. }
  split; [exact HD|].
  split.
  { assert (Queue.attemptsMade j = 1 \/ Queue.attemptsMade j = 2) as [H1 | H2] by lia.
    - left. split; [done|]. rewrite HD, H1. reflexivity.
    - right. split; [done|]. rewrite HD, H2. reflexivity. }
  split; [reflexivity|].
  split.
  - intros t. unfold Queue.step. simpl.
    replace (now + D)%Z with (now + Queue.backoffDelay deploy_opts (Queue.attemptsMade j))%Z
      by (unfold D; simpl; lia).
    destruct (Z.leb_spec (now + Queue.backoffDelay deploy_opts (Queue.attemptsMade j)) t).
    + split; [done | by eexists].
    + split; [intros [? ?]; discriminate | lia].
  - intros t j''. unfold Queue.step. simpl.
    destruct (_ <=? t)%Z; [|discriminate]. by intros [= <-].
Qed.

Lemma C2_backoff_delay_witness :
  history "1" "deploy" example_data
    [Queue.claim; Queue.acknowledgeFailure 1000 "clone failed";
     Queue.backoffElapsed 6000; Queue.claim]
    (Queue.update (Queue.fresh "1" "deploy" example_data deploy_opts)
       2 Queue.Active None None 6000%Z)
  /\ (Queue.availableAt
        (Queue.update (Queue.fresh "1" "deploy" example_data deploy_opts)
           2 Queue.DelayedRetry None (Some "deploy failed") 30000%Z)
      - 20000)%Z = 10000%Z.
Proof.
  assert (Hh : history "1" "deploy" example_data
            [Queue.claim; Queue.acknowledgeFailure 1000 "clone failed";
             Queue.backoffElapsed 6000; Queue.claim]
            (Queue.update (Queue.fresh "1" "deploy" example_data deploy_opts)
               2 Queue.Active None None 6000%Z)) by reflexivity.
  split; [exact Hh|].
  destruct (C2_backoff_delay "1" "deploy" example_data _ _ 20000 "deploy failed"
              (Queue.update (Queue.fresh "1" "deploy" example_data deploy_opts)
                 2 Queue.DelayedRetry None (Some "deploy failed") 30000%Z)
              Hh eq_refl eq_refl) as (_ & [[Hone _] | [_ HD]] & _).
  - discriminate Hone.
  - exact HD.
Defined.

Lemma failed_is_terminal j ev :
  Queue.state j = Queue.Failed -> Queue.step ev j = None.
Proof. intros Hst. unfold Queue.step. rewrite Hst. by destruct ev. Qed.

Lemma step_attempts_inv ev j j' k :
  attempts_inv j k ->
  Queue.step ev j = Some j' ->
  attempts_inv j' ((if is_failure ev then 1 else 0)
                   + (if is_claim_loss ev then 1 else 0) + k).
Proof.
  intros [Hopts Hk] Hstep. unfold Queue.step in Hstep.
  destruct ev, (Queue.state j) eqn:Hst; try discriminate Hstep; simpl in Hstep.
  - rewrite Hopts in Hstep. simpl in Hstep.
    destruct (Queue.attemptsMade j <? 3) eqn:Hlt; [|discriminate].
    apply Nat.ltb_lt in Hlt. injection Hstep as <-. split; simpl; [done | lia].
  - injection Hstep as <-. split; simpl; [done | lia].
  - rewrite Hopts in Hstep. simpl in Hstep.
    destruct (Queue.attemptsMade j <? 3) eqn:Hlt; injection Hstep as <-.
    + apply Nat.ltb_lt in Hlt. split; simpl; [done | lia].
    + apply Nat.ltb_ge in Hlt. split; simpl; [done | lia].
  - injection Hstep as <-. split; simpl; [done | lia].
  - destruct (Queue.availableAt j <=? now)%Z; [|discriminate].
    injection Hstep as <-. split; simpl; [done | lia].
Qed.

Lemma run_attempts_inv evs j j' k :
  attempts_inv j k ->
  Queue.run evs j = Some j' ->
  attempts_inv j' (failed_attempts evs + k).
Proof.
  unfold failed_attempts.
  revert j k. induction evs as [|ev evs IH]; simpl; intros j k Hinv Hrun.
  - by injection Hrun as <-.
  - destruct (Queue.step ev j) as [j1|] eqn:Hstep; [|discriminate].
    pose proof (step_attempts_inv _ _ _ _ Hinv Hstep) as H1.
    specialize (IH _ _ H1 Hrun).
    replace ((if is_failure ev then 1 else 0) + failures evs
             + ((if is_claim_loss ev then 1 else 0) + claim_losses evs) + k)
      with (failures evs + claim_losses evs
            + ((if is_failure ev then 1 else 0)
               + (if is_claim_loss ev then 1 else 0) + k)) by lia.
    exact IH.
Qed.

Lemma run_snoc evs ev j :
  Queue.run (evs ++ [ev]) j =
  match Queue.run evs j with
  | Some j1 => Queue.step ev j1
  | None => None
  end.
Proof.
  revert j. induction evs as [|e evs IH]; simpl; intros j.
  - by destruct (Queue.step ev j).
  - destruct (Queue.step e j); [apply IH | done].
Qed.

Lemma failures_snoc evs ev :
  failures (evs ++ [ev]) = failures evs + (if is_failure ev then 1 else 0).
Proof. induction evs as [|e evs IH]; simpl; lia. Qed.

(** A job is Failed only as the result of a reported failure. *)
Lemma failed_by_failure evs j j0 :
  Queue.state j0 <> Queue.Failed ->
  Queue.run evs j0 = Some j ->
  Queue.state j = Queue.Failed ->
  1 <= failures evs.
Proof.
  revert j. induction evs as [|ev evs IH] using rev_ind; intros j Hne Hrun Hst.
  - simpl in Hrun. injection Hrun as <-. done.
  - rewrite run_snoc in Hrun. rewrite failures_snoc.
    destruct (Queue.run evs j0) as [j1|] eqn:Hrun1; [|discriminate].
    unfold Queue.step in Hrun.
    destruct ev, (Queue.state j1) eqn:Hst1; try discriminate Hrun; simpl in Hrun;
      try (simpl; lia).
    all: repeat match type of Hrun with
                | context [if ?b then _ else _] => destruct b
                end; try discriminate Hrun.
    all: injection Hrun as <-; discriminate Hst.
Qed.

(** C3.  For every job the server enqueued and every history of it, lost
    claims included: [attemptsMade] never exceeds 3; the job is Failed only
    after exactly 3 attempts, each of which failed (by a failure the
    executor reported or by a claim lost to the visibility timeout, one
    reported failure at least), so after exactly 3 reported failures when no
    claim was lost; and once Failed, no event of the queue applies to the
    job any more: it is never claimed or retried again. *)
Theorem C3_retry_bound jid nm d evs j :
  history jid nm d evs j ->
  Queue.attemptsMade j <= 3
  /\ (Queue.state j = Queue.Failed ->
      Queue.attemptsMade j = 3
      /\ failed_attempts evs = 3
      /\ 1 <= failures evs
      /\ (claim_losses evs = 0 -> failures evs = 3))
  /\ (Queue.state j = Queue.Failed -> forall ev, Queue.step ev j = None).
Proof.
  intros Hhist.
  assert (Hinv : attempts_inv j (failed_attempts evs + 0)).
  { apply (run_attempts_inv evs (Queue.fresh jid nm d deploy_opts) j 0);
      [split; simpl; [done | lia] | exact Hhist]. }
  destruct Hinv as [_ Hk].
  split; [destruct (Queue.state j); lia|].
  split; [|intros Hst ev; by apply failed_is_terminal].
  intros Hst. rewrite Hst in Hk.
  assert (Hone : 1 <= failures evs).
  { apply (failed_by_failure evs j (Queue.fresh jid nm d deploy_opts));
      [simpl; discriminate | exact Hhist | exact Hst]. }
  unfold failed_attempts in *. repeat split; try lia.
Qed.

Lemma C3_retry_bound_witness :
  history "1" "deploy" example_data three_failures
    (Queue.update (Queue.fresh "1" "deploy" example_data deploy_opts)
       3 Queue.Failed None (Some "deploy failed") 20000%Z)
  /\ failures three_failures = 3.
Proof.
  assert (Hh : history "1" "deploy" example_data three_failures
            (Queue.update (Queue.fresh "1" "deploy" example_data deploy_opts)
               3 Queue.Failed None (Some "deploy failed") 20000%Z)) by reflexivity.
  split; [exact Hh|].
  destruct (C3_retry_bound "1" "deploy" example_data three_failures _ Hh)
    as (_ & Hfailed & _).
  destruct (Hfailed eq_refl) as (_ & _ & _ & Hnone).
  exact (Hnone eq_refl).
Defined.

(** *** The status query *)

Lemma step_job_wf ev j j' : Queue.step ev j = Some j' -> job_wf j'.
Proof.
  unfold Queue.step. intros Hstep.
  destruct ev, (Queue.state j); try discriminate Hstep; simpl in Hstep.
  all: repeat match type of Hstep with
              | context [if ?b then _ else _] => destruct b
              end; try discriminate Hstep.
  all: injection Hstep as <-; split; simpl; intros H;
    try discriminate H; try (destruct H as [H | H]; discriminate H); by eexists.
Qed.

Lemma act_jobs_wf a q q' :
  Forall job_wf (Queue.jobs q) -> Queue.act a q = Some q' ->
  Forall job_wf (Queue.jobs q').
Proof.
  intros Hwf. destruct a as [nm d o | jid ev]; simpl.
  - intros [= <-]. simpl. apply Forall_app. split; [done|].
    constructor; [|constructor]. split; simpl; intros H;
      [discriminate H | destruct H as [H | H]; discriminate H].
  - unfold Queue.apply.
    destruct (find _ (Queue.jobs q)) as [j|]; [|discriminate].
    destruct (Queue.step ev j) as [j'|] eqn:Hstep; [|discriminate].
    intros [= <-]. simpl. apply Forall_map.
    eapply Forall_impl; [exact Hwf|]. intros k Hk. simpl.
    destruct (String.eqb (Queue.id k) jid); [by eapply step_job_wf | done].
Qed.

Lemma reachable_jobs_wf q : reachable q -> Forall job_wf (Queue.jobs q).
Proof.
  intros [l Hl]. revert Hl.
  assert (Hgen : forall q0, Forall job_wf (Queue.jobs q0) ->
                   Queue.acts l q0 = Some q -> Forall job_wf (Queue.jobs q)).
  { induction l as [|a l IH]; simpl; intros q0 H0 Hrun.
    - by injection Hrun as <-.
    - destruct (Queue.act a q0) as [q1|] eqn:Hact; [|discriminate].
      eapply IH; [|exact Hrun]. by eapply act_jobs_wf. }
  apply Hgen. constructor.
Qed.

Lemma job_with_id_wf q jid job :
  reachable q -> job_with_id q jid = Some job ->
  job_wf job /\ Queue.id job = jid.
Proof.
  intros Hq Hfind. apply find_some in Hfind as [Hin Hid].
  split; [|by apply String.eqb_eq].
  pose proof (reachable_jobs_wf q Hq) as Hall.
  rewrite Forall_forall in Hall. apply Hall. by apply list_elem_of_In.
Qed.

(** The status handler of [src/index.ts] answers not-found for an unknown
    id and the full projection, [attemptsMade] included, for a known one. *)
Lemma IndexTs_status_projection req q :
  reachable q ->
  match job_with_id q (Express.jobId (Express.params req)) with
  | None => IndexTs.get_deploy_status req q = (Normal job_not_found, q)
  | Some job =>
      exists r, IndexTs.get_deploy_status req q = (Normal r, q)
                /\ status_projection r job
  end.
Proof.
  intros Hq. unfold IndexTs.get_deploy_status. run_handler.
  destruct (job_with_id q _) as [job|] eqn:Hfind; unfold job_with_id in Hfind;
    rewrite Hfind; [|done].
  destruct (job_with_id_wf q _ job Hq Hfind) as [[Hres Hreason] Hid].
  eexists. split; [reflexivity|].
  unfold status_projection. simpl.
  split; [done|]. split; [done|]. split; [done|].
  split.
  - destruct (Queue.failedReason job); reflexivity.
  - split.
    + intros Hst. destruct (Hres Hst) as [res Hrv]. exists res.
      split; [done|]. rewrite Hrv. reflexivity.
    + intros Hst. destruct (Hreason Hst) as [reason Hfr]. exists reason.
      split; [done|]. rewrite Hfr. reflexivity.
Qed.

(** The JavaScript copy never reports [attemptsMade]. *)
Lemma ServerJs_status_no_attemptsMade req q r q' :
  ServerJs.get_deploy_status req q = (Normal r, q') ->
  get "attemptsMade" (Express.json r) = None.
Proof.
  unfold ServerJs.get_deploy_status. run_handler.
  destruct (find _ (Queue.jobs q)) as [job|]; intros [= <- <-]; [|reflexivity].
  simpl. destruct (Queue.failedReason job); reflexivity.
Qed.

(** C5.  The status query of [src/index.ts] reports [attemptsMade]; the
    one of the JavaScript copy does not.  On the queue holding the one job
    of a manual trigger, the query for job ["1"] is answered by
    [src/index.ts] with the full projection, and by the JavaScript copy with
    id and state but without [attemptsMade]; both answer not-found for the
    unknown id ["2"]. *)
Theorem C5_status_js_copy_omits_attemptsMade :
  (exists r job,
     job_with_id one_job_queue "1" = Some job
     /\ IndexTs.get_deploy_status (example_status "1") one_job_queue
        = (Normal r, one_job_queue)
     /\ status_projection r job
     /\ get "attemptsMade" (Express.json r) = Some (JNum 0))
  /\ (exists r,
        ServerJs.get_deploy_status (example_status "1") one_job_queue
        = (Normal r, one_job_queue)
        /\ Express.status r = 200
        /\ get "id" (Express.json r) = Some (JStr "1")
        /\ get "state" (Express.json r) = Some (JStr "waiting")
        /\ get "attemptsMade" (Express.json r) = None)
  /\ IndexTs.get_deploy_status (example_status "2") one_job_queue
     = (Normal job_not_found, one_job_queue)
  /\ ServerJs.get_deploy_status (example_status "2") one_job_queue
     = (Normal job_not_found, one_job_queue).
Proof.
  split; [|split; [|split]].
  - eexists _, _. split; [by vm_compute|]. split; [by vm_compute|].
    split; [|by vm_compute].
    repeat split; try (by vm_compute); intros H; exfalso; vm_compute in H;
      try discriminate H; destruct H as [H | H]; discriminate H.
  - eexists. split; [by vm_compute|]. by vm_compute.
  - by vm_compute.
  - by vm_compute.
Qed.

(** *** The worker's workspace *)

Lemma fs_rm_absent dir fs : workspace_absent dir (WorkerTs.fs_rm dir fs).2.
Proof.
  intros p Hp. unfold WorkerTs.fs_rm in Hp. simpl in Hp.
  by apply elem_of_filter in Hp as [Hout _].
Qed.

(** Whatever the body does and however it completes, the [finally] block
    has removed [dir] when [try ... finally] is left. *)
Lemma try_finally_rm_absent {A} (body : Js.M (gset string) A) dir fs :
  workspace_absent dir (Js.try_finally body (WorkerTs.fs_rm dir) fs).2
  /\ (Js.try_finally body (WorkerTs.fs_rm dir) fs).1 = (body fs).1.
Proof.
  unfold Js.try_finally. destruct (body fs) as [r fs1]. simpl.
  split; [apply (fs_rm_absent dir fs1) | done].
Qed.

Lemma mkdtemp_fresh w prefix fs :
  prefix +:+ WorkerTs.mkdtemp_suffix w ∉ fs ->
  WorkerTs.fs_mkdtemp w prefix fs
  = (Normal (prefix +:+ WorkerTs.mkdtemp_suffix w),
     {[prefix +:+ WorkerTs.mkdtemp_suffix w]} ∪ fs).
Proof.
  intros Hfresh. unfold WorkerTs.fs_mkdtemp.
  by rewrite bool_decide_eq_false_2.
Qed.

(** C4.  For every job and every behaviour of the outside world (clone
    succeeding or failing, [vercel] succeeding or failing, whatever they
    write), when [mkdtemp] has created the attempt's workspace, then at the
    moment [deployAgent] returns or throws the workspace and everything
    below it are gone; and the worker's processor, which only awaits
    [deployAgent], leaves the same file system. *)
Theorem C4_workspace_removed config w job fs :
  workspace w (Queue.data job) ∉ fs ->
  workspace_absent (workspace w (Queue.data job))
    (WorkerTs.deployAgent config w (Queue.data job) fs).2
  /\ workspace_absent (workspace w (Queue.data job))
       (WorkerTs.processor config w job fs).2.
Proof.
  intros Hfresh.
  assert (H : workspace_absent (workspace w (Queue.data job))
                (WorkerTs.deployAgent config w (Queue.data job) fs).2).
  { unfold WorkerTs.deployAgent. simpl. unfold Js.bind at 1.
    unfold workspace in Hfresh |- *.
    rewrite (mkdtemp_fresh _ _ _ Hfresh).
    apply try_finally_rm_absent. }
  split; [exact H|].
  unfold WorkerTs.processor, Js.bind, Js.ret. simpl.
  by destruct (WorkerTs.deployAgent config w (Queue.data job) fs) as [[r|e] fs'].
Qed.

(** The three exits of an attempt on a file system that holds another
    attempt's workspace: a deploy that succeeds, a clone that fails, a
    [vercel] run that fails.  Each time only the other files are left. *)
Lemma deployAgent_success :
  WorkerTs.deployAgent example_config (example_world true true) example_data example_fs
  = (Normal {| Queue.url := "https://otis.vercel.app";
               Queue.deploymentId := "deploy-1704067200000" |},
     example_fs).
Proof. by vm_compute. Qed.

Lemma deployAgent_clone_failure :
  WorkerTs.deployAgent example_config (example_world false true) example_data example_fs
  = (Throw (ExecaError "Command failed: git clone"), example_fs).
Proof. by vm_compute. Qed.

Lemma deployAgent_vercel_failure :
  WorkerTs.deployAgent example_config (example_world true false) example_data example_fs
  = (Throw (ExecaError "Command failed: vercel"), example_fs).
Proof. by vm_compute. Qed.

Lemma C4_workspace_removed_witness :
  (workspace (example_world true true) example_data ∉ example_fs)
  /\ workspace_absent "/tmp/deploy-otis-a1B2c3"
       (WorkerTs.deployAgent example_config (example_world true true)
          example_data example_fs).2.
Proof.
  assert (Hfresh : workspace (example_world true true)
                     (Queue.data (Queue.fresh "1" "deploy" example_data deploy_opts))
                   ∉ example_fs).
  { apply (bool_decide_unpack _). by vm_compute. }
  split; [exact Hfresh|].
  exact (proj1 (C4_workspace_removed example_config (example_world true true)
                  (Queue.fresh "1" "deploy" example_data deploy_opts)
                  example_fs Hfresh)).
Defined.

(** *** Scenarios *)

Example replace_branch_ref : branch_of_ref "refs/heads/main" = "main".
Proof. reflexivity. Qed.

Example replace_first_occurrence_only :
  branch_of_ref "refs/heads/refs/heads/x" = "refs/heads/x"
  /\ branch_of_ref "refs/tags/v1" = "refs/tags/v1".
Proof. split; reflexivity. Qed.

(** Agent [otis] deploys [main] with auto-deploy on: a push on [main]
    enqueues job ["1"], Waiting. *)
Example push_main_enqueued :
  exists job,
    IndexTs.post_webhook_github Config.agents example_config example_hmac
      example_stringify "2024-01-01T00:00:00.000Z"
      (example_push "refs/heads/main" "otis-seo-agent") Queue.empty
    = (Normal (Express.res_json
                 (obj [("queued", Some (JBool true)); ("jobId", Some (JStr "1"));
                       ("agent", Some (JStr "otis")); ("branch", Some (JStr "main"))])),
       {| Queue.jobs := [job]; Queue.counter := 1 |})
    /\ Queue.state job = Queue.Waiting /\ Queue.attemptsMade job = 0
    /\ Queue.commit (Queue.data job) = Some "abc123".
Proof. eexists. split; [by vm_compute | by repeat split]. Qed.

Example push_unknown_repo :
  IndexTs.post_webhook_github Config.agents example_config example_hmac
    example_stringify "2024-01-01T00:00:00.000Z"
    (example_push "refs/heads/main" "somebody-else") Queue.empty
  = (Normal (IndexTs.ignored "unknown repo"), Queue.empty).
Proof. reflexivity. Qed.

(** The branch check comes before the auto-deploy check. *)
Example push_checks_in_order :
  ServerJs.post_webhook_github example_registry example_config example_hmac
    example_stringify "2024-01-01T00:00:00.000Z"
    (example_push "refs/heads/staging" "harold-finance-agent") Queue.empty
  = (Normal (IndexTs.ignored "branch not configured"), Queue.empty)
  /\ ServerJs.post_webhook_github example_registry example_config example_hmac
       example_stringify "2024-01-01T00:00:00.000Z"
       (example_push "refs/heads/main" "harold-finance-agent") Queue.empty
     = (Normal (IndexTs.ignored "auto-deploy disabled"), Queue.empty).
Proof. split; reflexivity. Qed.

(** A header of the wrong length throws; one of the right length and the
    wrong content is the 401. *)
Example signature_wrong_length_throws :
  IndexTs.post_webhook_github Config.agents example_config example_hmac
    example_stringify "2024-01-01T00:00:00.000Z"
    (example_signed_push "sha256=abc") Queue.empty
  = (Throw (RangeError "Input buffers must have the same byte length"), Queue.empty).
Proof. reflexivity. Qed.

Example signature_wrong_content_401 :
  IndexTs.post_webhook_github Config.agents example_config example_hmac
    example_stringify "2024-01-01T00:00:00.000Z"
    (example_signed_push
       "sha256=1111111111111111111111111111111111111111111111111111111111111111")
    Queue.empty
  = (Normal (Express.res_status_json 401
               (obj [("error", Some (JStr "Invalid signature"))])), Queue.empty).
Proof. reflexivity. Qed.

(** The executor fails twice, then succeeds: Completed with three attempts
    made.  It fails three times: Failed, with the last reason. *)
Example fails_twice_then_succeeds :
  exists j, history "1" "deploy" example_data third_time_lucky j
            /\ Queue.state j = Queue.Completed /\ Queue.attemptsMade j = 3.
Proof. eexists. split; [reflexivity | by split]. Qed.

Example fails_three_times :
  exists j, history "1" "deploy" example_data three_failures j
            /\ Queue.state j = Queue.Failed /\ Queue.attemptsMade j = 3
            /\ Queue.failedReason j = Some "deploy failed".
Proof. eexists. split; [reflexivity | by repeat split]. Qed.

(** The retry cannot come early: 4999ms after the first failure the job is
    still delayed, 5000ms after it is Waiting again. *)
Example backoff_not_early :
  Queue.run [Queue.claim; Queue.acknowledgeFailure 1000 "x"; Queue.backoffElapsed 5999]
    (Queue.fresh "1" "deploy" example_data deploy_opts) = None
  /\ (Queue.state <$>
        Queue.run [Queue.claim; Queue.acknowledgeFailure 1000 "x"; Queue.backoffElapsed 6000]
          (Queue.fresh "1" "deploy" example_data deploy_opts)) = Some Queue.Waiting.
Proof. split; reflexivity. Qed.

(** A job whose three claims were lost is not claimed a fourth time; one
    whose first two claims were lost is Failed by the failure of the
    third. *)
Example no_fourth_claim :
  Queue.run lost_claims (Queue.fresh "1" "deploy" example_data deploy_opts) = None
  /\ exists j, history "1" "deploy" example_data lost_then_failed j
               /\ Queue.state j = Queue.Failed /\ Queue.attemptsMade j = 3
               /\ failures lost_then_failed = 1
               /\ claim_losses lost_then_failed = 2.
Proof. split; [reflexivity|]. eexists. split; [reflexivity | by repeat split]. Qed.

(* ===================================================================== *)
(** ** Further properties of the server                                    *)
(* ===================================================================== *)

(** *** Signature verification *)

Lemma list_ascii_of_string_inj (s t : string) :
  String.list_ascii_of_string s = String.list_ascii_of_string t -> s = t.
Proof.
  intros H. rewrite <- (String.string_of_list_ascii_of_string s),
              <- (String.string_of_list_ascii_of_string t). by rewrite H.
Qed.

Lemma verifySignature_cases hmac payload signature secret :
  IndexTs.verifySignature hmac payload signature secret =
  match signature with
  | None => Throw (TypeError "The first argument must be of type string or an instance of Buffer")
  | Some s =>
      if String.length s =? String.length ("sha256=" +:+ hmac secret payload)
      then Normal (bool_decide (s = "sha256=" +:+ hmac secret payload))
      else Throw (RangeError "Input buffers must have the same byte length")
  end.
Proof.
  unfold IndexTs.verifySignature. destruct signature as [s|]; [|done].
  cbn [Crypto.Buffer_from]. unfold Crypto.timingSafeEqual.
  rewrite !length_list_ascii_of_string.
  destruct (_ =? _); [|done]. f_equal. apply bool_decide_ext. split.
  - apply list_ascii_of_string_inj.
  - by intros ->.
Qed.

Lemma verifySignature_decides hmac payload signature secret :
  (IndexTs.verifySignature hmac payload signature secret = Normal true
   <-> signature = Some ("sha256=" +:+ hmac secret payload))
  /\ (IndexTs.verifySignature hmac payload signature secret = Normal false
      <-> exists s, signature = Some s
                    /\ String.length s = String.length ("sha256=" +:+ hmac secret payload)
                    /\ s <> "sha256=" +:+ hmac secret payload)
  /\ ((exists e, IndexTs.verifySignature hmac payload signature secret = Throw e)
      <-> malformed_signature signature ("sha256=" +:+ hmac secret payload))
  /\ ServerJs.verifySignature hmac payload signature secret
     = IndexTs.verifySignature hmac payload signature secret.
Proof.
  assert (Hsame : ServerJs.verifySignature hmac payload signature secret
                  = IndexTs.verifySignature hmac payload signature secret)
    by reflexivity.
  rewrite Hsame. clear Hsame.
  rewrite verifySignature_cases. unfold malformed_signature.
  destruct signature as [s|].
  2:{ split; [done|]. split; [split; [done | intros (s' & ? & _); done]|].
      split; [|done]. split; [by left | by eexists]. }
  destruct (Nat.eqb_spec (String.length s)
              (String.length ("sha256=" +:+ hmac secret payload))) as [Hlen | Hlen].
  2:{ split; [split; [done | by intros [= ->]]|].
      split; [split; [done | intros (s' & [= <-] & Hlen' & _); done]|].
      split; [|done]. split; [intros _; right; by exists s | by eexists]. }
  destruct (decide (s = "sha256=" +:+ hmac secret payload)) as [Heq | Hne].
  - rewrite bool_decide_eq_true_2 by done. subst s.
    split; [done|]. split; [|split; [|done]].
    + split; [discriminate | intros (s' & [= <-] & _ & Hne); done].
    + split; [intros [e He]; discriminate|].
      intros [? | (s' & [= <-] & Hne)]; [discriminate | done].
  - rewrite bool_decide_eq_false_2 by done.
    split; [|split; [|split; [|done]]].
    + split; [discriminate | by intros [= ->]].
    + split; [intros _; by exists s | done].
    + split; [intros [e He]; discriminate|].
      intros [? | (s' & [= <-] & Hne')]; [discriminate | done].
Qed.

(** X1.  [verifySignature] answers [true] exactly when the header is the
    expected ['sha256=' + digest] string, [false] exactly when it is another
    string of the same byte length, and throws in all other cases; the two
    copies of the server agree. *)
Theorem X1_verifySignature_decides hmac payload signature secret :
  (IndexTs.verifySignature hmac payload signature secret = Normal true
   <-> signature = Some ("sha256=" +:+ hmac secret payload))
  /\ (IndexTs.verifySignature hmac payload signature secret = Normal false
      <-> exists s, signature = Some s
                    /\ String.length s = String.length ("sha256=" +:+ hmac secret payload)
                    /\ s <> "sha256=" +:+ hmac secret payload)
  /\ ((exists e, IndexTs.verifySignature hmac payload signature secret = Throw e)
      <-> malformed_signature signature ("sha256=" +:+ hmac secret payload))
  /\ ServerJs.verifySignature hmac payload signature secret
     = IndexTs.verifySignature hmac payload signature secret.
Proof. apply verifySignature_decides. Qed.

(** *** What the webhook never does *)

Lemma webhook_not_verified agents config hmac stringify now req q :
  IndexTs.verifySignature hmac (stringify (Express.body req))
    (Express.x_hub_signature_256 (Express.headers req))
    (Config.webhook_secret config) <> Normal true ->
  forall h,
    h = IndexTs.post_webhook_github agents config hmac stringify now req
    \/ h = ServerJs.post_webhook_github agents config hmac stringify now req ->
    (h q).2 = q
    /\ ((h q).1 = Normal invalid_signature \/ exists e, (h q).1 = Throw e).
Proof.
  intros Hsig h Hh.
  assert (Hrun : h q =
    match IndexTs.verifySignature hmac (stringify (Express.body req))
            (Express.x_hub_signature_256 (Express.headers req))
            (Config.webhook_secret config) with
    | Normal true => h q
    | Normal false => (Normal invalid_signature, q)
    | Throw e => (Throw e, q)
    end).
  { destruct Hh as [-> | ->];
      unfold IndexTs.post_webhook_github, ServerJs.post_webhook_github;
      unfold Js.bind, Js.lift;
      change (ServerJs.verifySignature hmac) with (IndexTs.verifySignature hmac);
      by destruct (IndexTs.verifySignature _ _ _ _) as [[|]|e]. }
  rewrite Hrun.
  destruct (IndexTs.verifySignature _ _ _ _) as [[|]|e]; [done | | ]; simpl.
  - split; [done | by left].
  - split; [done | right; by exists e].
Qed.

(** X2.  A request whose signature header is not exactly the expected
    value never reaches the Dispatcher: whatever its event and body, both
    copies of the webhook handler leave the queue as it was, and the
    request ends in the 401 response or in an exception; it is the 401
    response whenever the header has the expected byte length. *)
Theorem X2_unauthenticated_never_enqueues agents config hmac stringify now req q :
  Express.x_hub_signature_256 (Express.headers req)
    <> Some (expected_signature config hmac stringify req) ->
  forall h,
    h = IndexTs.post_webhook_github agents config hmac stringify now req
    \/ h = ServerJs.post_webhook_github agents config hmac stringify now req ->
    (h q).2 = q
    /\ ((h q).1 = Normal invalid_signature \/ exists e, (h q).1 = Throw e)
    /\ ((exists s, Express.x_hub_signature_256 (Express.headers req) = Some s
                   /\ String.length s
                      = String.length (expected_signature config hmac stringify req)) ->
        h q = (Normal invalid_signature, q)).
Proof.
  intros Hbad h Hh.
  destruct (verifySignature_decides hmac (stringify (Express.body req))
              (Express.x_hub_signature_256 (Express.headers req))
              (Config.webhook_secret config)) as (Htrue & Hfalse & _ & _).
  assert (Hsig : IndexTs.verifySignature hmac (stringify (Express.body req))
                   (Express.x_hub_signature_256 (Express.headers req))
                   (Config.webhook_secret config) <> Normal true).
  { intros H. apply Htrue in H. by apply Hbad. }
  destruct (webhook_not_verified agents config hmac stringify now req q Hsig h Hh)
    as [Hq Hr].
  split; [exact Hq|]. split; [exact Hr|].
  intros (s & Hs & Hlen).
  assert (Hf : IndexTs.verifySignature hmac (stringify (Express.body req))
                 (Express.x_hub_signature_256 (Express.headers req))
                 (Config.webhook_secret config) = Normal false).
  { apply Hfalse. exists s. split; [done|]. split; [done|].
    intros ->. by apply Hbad. }
  destruct Hh as [-> | ->];
    unfold IndexTs.post_webhook_github, ServerJs.post_webhook_github;
    unfold Js.bind, Js.lift;
    change (ServerJs.verifySignature hmac) with (IndexTs.verifySignature hmac);
    by rewrite Hf.
Qed.

Lemma X2_unauthenticated_never_enqueues_witness :
  Express.x_hub_signature_256
    (Express.headers
       (example_signed_push
          "sha256=1111111111111111111111111111111111111111111111111111111111111111"))
  <> Some (expected_signature example_config example_hmac example_stringify
             (example_signed_push
                "sha256=1111111111111111111111111111111111111111111111111111111111111111"))
  /\ (IndexTs.post_webhook_github Config.agents example_config example_hmac
        example_stringify "2024-01-01T00:00:00.000Z"
        (example_signed_push
           "sha256=1111111111111111111111111111111111111111111111111111111111111111")
        Queue.empty).2 = Queue.empty.
Proof.
  assert (Hbad : Express.x_hub_signature_256
            (Express.headers
               (example_signed_push
                  "sha256=1111111111111111111111111111111111111111111111111111111111111111"))
          <> Some (expected_signature example_config example_hmac example_stringify
                     (example_signed_push
                        "sha256=1111111111111111111111111111111111111111111111111111111111111111")))
    by (vm_compute; discriminate).
  split; [exact Hbad|].
  exact (proj1 (X2_unauthenticated_never_enqueues Config.agents example_config
                  example_hmac example_stringify "2024-01-01T00:00:00.000Z" _
                  Queue.empty Hbad _ (or_introl eq_refl))).
Defined.

Lemma push_enqueue_of_checks agents config hmac stringify req q q' r gitref R cs
    (mk : Config.Agent -> Queue.DeployJob) :
  push_trigger config hmac stringify req gitref R cs ->
  (forall a, Queue.agent (mk a) = Config.name a
             /\ Queue.repo (mk a) = R /\ Queue.branch (mk a) = branch_of_ref gitref) ->
  match find (fun a => String.eqb (Config.repo a) R) agents with
  | None => (Normal (IndexTs.ignored "unknown repo"), q)
  | Some a =>
      if negb (includes (Config.branches a) (branch_of_ref gitref)) then
        (Normal (IndexTs.ignored "branch not configured"), q)
      else if negb (Config.autoDeploy a) then
        (Normal (IndexTs.ignored "auto-deploy disabled"), q)
      else
        let job := Queue.fresh (pretty (S (Queue.counter q))) "deploy" (mk a) deploy_opts in
        (Normal (queued_push job a (branch_of_ref gitref)), enqueued q job)
  end = (r, q') ->
  q' <> q ->
  push_enqueue_conditions agents config hmac stringify req q q' r.
Proof.
  intros (Hsig & Hev & Href & Hrepo & Hcs) Hmk Hrun Hne.
  destruct (find _ agents) as [a|] eqn:Hfind; [|by injection Hrun as _ <-].
  destruct (includes _ _) eqn:Hinc; simpl in Hrun; [|by injection Hrun as _ <-].
  destruct (Config.autoDeploy a) eqn:Hauto; simpl in Hrun; [|by injection Hrun as _ <-].
  injection Hrun as <- <-.
  split.
  { by apply (proj1 (verifySignature_decides _ _ _ _)) in Hsig. }
  split; [exact Hev|].
  eexists gitref, R, cs, a, _.
  split; [exact Href|]. split; [exact Hrepo|]. split; [exact Hcs|].
  split; [by apply find_first_such|].
  split; [by apply includes_elem_of|].
  split; [exact Hauto|].
  split; [reflexivity|]. split; [reflexivity|].
  simpl. by destruct (Hmk a) as (? & ? & ?).
Qed.

Lemma IndexTs_webhook_enqueue_sound agents config hmac stringify now req q r q' :
  IndexTs.post_webhook_github agents config hmac stringify now req q = (r, q') ->
  q' <> q ->
  push_enqueue_conditions agents config hmac stringify req q q' r.
Proof.
  intros Hrun Hne.
  destruct (IndexTs.verifySignature hmac (stringify (Express.body req))
              (Express.x_hub_signature_256 (Express.headers req))
              (Config.webhook_secret config)) as [[|]|e] eqn:Hsig.
  2,3: exfalso; apply Hne;
    assert (Hnot : IndexTs.verifySignature hmac (stringify (Express.body req))
                     (Express.x_hub_signature_256 (Express.headers req))
                     (Config.webhook_secret config) <> Normal true)
      by (rewrite Hsig; discriminate);
    destruct (webhook_not_verified agents config hmac stringify now req q Hnot _
                (or_introl eq_refl)) as [Hq _];
    by rewrite Hrun in Hq.
  destruct (Express.x_github_event (Express.headers req)) as [ev|] eqn:Hev.
  2:{ exfalso. apply Hne. unfold IndexTs.post_webhook_github in Hrun.
      unfold Js.bind, Js.lift, Js.ret in Hrun. rewrite Hsig, Hev in Hrun.
      simpl in Hrun. by injection Hrun as _ <-. }
  destruct (decide (ev = "push")) as [-> | Hpush].
  2:{ exfalso. apply Hne. unfold IndexTs.post_webhook_github in Hrun.
      unfold Js.bind, Js.lift, Js.ret in Hrun. rewrite Hsig, Hev in Hrun.
      simpl in Hrun. rewrite bool_decide_eq_false_2 in Hrun by congruence.
      by injection Hrun as _ <-. }
  destruct (Express.ref (Express.body req)) as [gitref|] eqn:Href.
  2:{ exfalso. apply Hne. unfold IndexTs.post_webhook_github in Hrun.
      unfold Js.bind, Js.lift, Js.ret in Hrun. rewrite Hsig, Hev, Href in Hrun.
      simpl in Hrun. by injection Hrun as _ <-. }
  destruct (Express.repository (Express.body req)) as [[R]|] eqn:Hrepo.
  2:{ exfalso. apply Hne. unfold IndexTs.post_webhook_github in Hrun.
      unfold Js.bind, Js.lift, Js.ret in Hrun. rewrite Hsig, Hev, Href, Hrepo in Hrun.
      simpl in Hrun. by injection Hrun as _ <-. }
  destruct (Express.commits (Express.body req)) as [cs|] eqn:Hcs.
  2:{ exfalso. apply Hne. unfold IndexTs.post_webhook_github in Hrun.
      unfold Js.bind, Js.lift, Js.ret in Hrun.
      rewrite Hsig, Hev, Href, Hrepo, Hcs in Hrun.
      simpl in Hrun. by injection Hrun as _ <-. }
  assert (Hpush : push_trigger config hmac stringify req gitref R cs) by done.
  rewrite (IndexTs_push_after_checks _ _ _ _ _ _ _ _ _ _ Hpush) in Hrun.
  eapply push_enqueue_of_checks; [exact Hpush | | exact Hrun | exact Hne].
  by intros a.
Qed.

Lemma ServerJs_webhook_enqueue_sound agents config hmac stringify now req q r q' :
  ServerJs.post_webhook_github agents config hmac stringify now req q = (r, q') ->
  q' <> q ->
  push_enqueue_conditions agents config hmac stringify req q q' r.
Proof.
  intros Hrun Hne.
  destruct (IndexTs.verifySignature hmac (stringify (Express.body req))
              (Express.x_hub_signature_256 (Express.headers req))
              (Config.webhook_secret config)) as [[|]|e] eqn:Hsig.
  2,3: exfalso; apply Hne;
    assert (Hnot : IndexTs.verifySignature hmac (stringify (Express.body req))
                     (Express.x_hub_signature_256 (Express.headers req))
                     (Config.webhook_secret config) <> Normal true)
      by (rewrite Hsig; discriminate);
    destruct (webhook_not_verified agents config hmac stringify now req q Hnot _
                (or_intror eq_refl)) as [Hq _];
    by rewrite Hrun in Hq.
  change (IndexTs.verifySignature hmac) with (ServerJs.verifySignature hmac) in Hsig.
  destruct (Express.x_github_event (Express.headers req)) as [ev|] eqn:Hev.
  2:{ exfalso. apply Hne. unfold ServerJs.post_webhook_github in Hrun.
      unfold Js.bind, Js.lift, Js.ret in Hrun. rewrite Hsig, Hev in Hrun.
      simpl in Hrun. by injection Hrun as _ <-. }
  destruct (decide (ev = "push")) as [-> | Hpush].
  2:{ exfalso. apply Hne. unfold ServerJs.post_webhook_github in Hrun.
      unfold Js.bind, Js.lift, Js.ret in Hrun. rewrite Hsig, Hev in Hrun.
      simpl in Hrun. rewrite bool_decide_eq_false_2 in Hrun by congruence.
      by injection Hrun as _ <-. }
  destruct (Express.ref (Express.body req)) as [gitref|] eqn:Href.
  2:{ exfalso. apply Hne. unfold ServerJs.post_webhook_github in Hrun.
      unfold Js.bind, Js.lift, Js.ret in Hrun. rewrite Hsig, Hev, Href in Hrun.
      simpl in Hrun. by injection Hrun as _ <-. }
  destruct (Express.repository (Express.body req)) as [[R]|] eqn:Hrepo.
  2:{ exfalso. apply Hne. unfold ServerJs.post_webhook_github in Hrun.
      unfold Js.bind, Js.lift, Js.ret in Hrun. rewrite Hsig, Hev, Href, Hrepo in Hrun.
      simpl in Hrun. by injection Hrun as _ <-. }
  destruct (Express.commits (Express.body req)) as [cs|] eqn:Hcs.
  2:{ exfalso. apply Hne. unfold ServerJs.post_webhook_github in Hrun.
      unfold Js.bind, Js.lift, Js.ret in Hrun.
      rewrite Hsig, Hev, Href, Hrepo, Hcs in Hrun. simpl in Hrun.
      destruct (find _ agents) as [a|]; [|by injection Hrun as _ <-].
      destruct (includes _ _); simpl in Hrun; [|by injection Hrun as _ <-].
      destruct (Config.autoDeploy a); simpl in Hrun; by injection Hrun as _ <-. }
  assert (Hpush : push_trigger config hmac stringify req gitref R cs) by done.
  rewrite (ServerJs_push_after_checks _ _ _ _ _ _ _ _ _ _ Hpush) in Hrun.
  eapply push_enqueue_of_checks; [exact Hpush | | exact Hrun | exact Hne].
  by intros a.
Qed.

(** X3.  The webhook enqueues only what the checks let through: whenever
    a run of either copy of the handler changes the queue, the request had
    the expected signature, was a push event with [ref], [repository] and
    [commits] present, the matched agent deploys the pushed branch and has
    auto-deploy on, and the change is exactly one fresh job for that agent
    appended to the queue. *)
Theorem X3_webhook_enqueue_sound agents config hmac stringify now req q r q' :
  (IndexTs.post_webhook_github agents config hmac stringify now req q = (r, q')
   \/ ServerJs.post_webhook_github agents config hmac stringify now req q = (r, q')) ->
  q' <> q ->
  push_enqueue_conditions agents config hmac stringify req q q' r.
Proof.
  intros [Hrun | Hrun] Hne.
  - by eapply IndexTs_webhook_enqueue_sound.
  - by eapply ServerJs_webhook_enqueue_sound.
Qed.

Lemma X3_webhook_enqueue_sound_witness :
  (exists r q',
     IndexTs.post_webhook_github Config.agents example_config example_hmac
       example_stringify "2024-01-01T00:00:00.000Z"
       (example_push "refs/heads/main" "otis-seo-agent") Queue.empty = (r, q')
     /\ q' <> Queue.empty
     /\ push_enqueue_conditions Config.agents example_config example_hmac
          example_stringify (example_push "refs/heads/main" "otis-seo-agent")
          Queue.empty q' r).
Proof.
  pose (out := IndexTs.post_webhook_github Config.agents example_config example_hmac
                 example_stringify "2024-01-01T00:00:00.000Z"
                 (example_push "refs/heads/main" "otis-seo-agent") Queue.empty).
  exists out.1, out.2.
  assert (Hrun : out = (out.1, out.2)) by reflexivity.
  assert (Hne : out.2 <> Queue.empty) by (vm_compute; discriminate).
  split; [exact Hrun|]. split; [exact Hne|].
  exact (X3_webhook_enqueue_sound Config.agents example_config example_hmac
           example_stringify "2024-01-01T00:00:00.000Z"
           (example_push "refs/heads/main" "otis-seo-agent") Queue.empty _ _
           (or_introl Hrun) Hne).
Defined.

(** *** Push bodies with missing fields *)

(** X4.  An authenticated push whose body lacks a field.  Without [ref],
    or with [ref] but without [repository], both copies of the handler throw
    a [TypeError].  Without [commits] the copies differ: [src/index.ts]
    always throws (it reads [commits.length] before any check), the
    JavaScript copy still reports every rejection and throws only for a push
    it would have enqueued.  The queue is unchanged in all these cases. *)
Theorem X4_push_missing_fields agents config hmac stringify now req q :
  authenticated_push config hmac stringify req ->
  (Express.ref (Express.body req) = None
   \/ Express.repository (Express.body req) = None ->
   throws_TypeError (IndexTs.post_webhook_github agents config hmac stringify now req) q
   /\ throws_TypeError (ServerJs.post_webhook_github agents config hmac stringify now req) q)
  /\ (forall gitref R,
        Express.ref (Express.body req) = Some gitref ->
        Express.repository (Express.body req) = Some {| Express.name := R |} ->
        Express.commits (Express.body req) = None ->
        throws_TypeError
          (IndexTs.post_webhook_github agents config hmac stringify now req) q
        /\ (push_rejected agents R (branch_of_ref gitref) ->
            push_rejection_reported
              (ServerJs.post_webhook_github agents config hmac stringify now req) q)
        /\ (push_accepted agents R (branch_of_ref gitref) ->
            throws_TypeError
              (ServerJs.post_webhook_github agents config hmac stringify now req) q)).
Proof.
  intros [Hsig Hev]. split.
  - intros Hmiss.
    split; unfold IndexTs.post_webhook_github, ServerJs.post_webhook_github;
      run_handler;
      change (ServerJs.verifySignature hmac) with (IndexTs.verifySignature hmac);
      rewrite Hsig, Hev; simpl;
      (destruct (Express.ref (Express.body req)) as [gitref|]; simpl; [|by eexists]);
      (destruct Hmiss as [Hmiss | Hmiss]; [discriminate|]);
      rewrite Hmiss; simpl; by eexists.
  - intros gitref R Href Hrepo Hcs. split; [|split].
    + unfold IndexTs.post_webhook_github. run_handler.
      rewrite Hsig, Hev, Href, Hrepo, Hcs. simpl. by eexists.
    + intros Hrej.
      by apply (ServerJs_rejection_no_commits agents config hmac stringify now req q
                  gitref R (conj Hsig Hev) Href Hrepo Hcs).
    + intros (a & Ha & Hin & Hauto). unfold throws_TypeError.
      rewrite (ServerJs_push_no_commits agents config hmac stringify now req q
                 gitref R (conj Hsig Hev) Href Hrepo Hcs).
      apply find_first_such in Ha. rewrite Ha.
      apply includes_elem_of in Hin. rewrite Hin, Hauto. simpl. by eexists.
Qed.

Lemma X4_push_missing_fields_witness :
  authenticated_push example_config example_hmac example_stringify
    (example_push_no_commits "refs/heads/staging" "otis-seo-agent")
  /\ throws_TypeError
       (IndexTs.post_webhook_github Config.agents example_config example_hmac
          example_stringify "2024-01-01T00:00:00.000Z"
          (example_push_no_commits "refs/heads/staging" "otis-seo-agent"))
       Queue.empty
  /\ ServerJs.post_webhook_github Config.agents example_config example_hmac
       example_stringify "2024-01-01T00:00:00.000Z"
       (example_push_no_commits "refs/heads/staging" "otis-seo-agent") Queue.empty
     = (Normal (IndexTs.ignored "branch not configured"), Queue.empty).
Proof.
  assert (Hauth : authenticated_push example_config example_hmac example_stringify
                    (example_push_no_commits "refs/heads/staging" "otis-seo-agent"))
    by (split; reflexivity).
  split; [exact Hauth|].
  split; [|reflexivity].
  exact (proj1 (proj2 (X4_push_missing_fields Config.agents example_config example_hmac
                         example_stringify "2024-01-01T00:00:00.000Z"
                         (example_push_no_commits "refs/heads/staging" "otis-seo-agent")
                         Queue.empty Hauth)
                  "refs/heads/staging" "otis-seo-agent" eq_refl eq_refl eq_refl)).
Defined.

(** *** The commit recorded in a push job *)

Lemma enqueued_neq q job : enqueued q job <> q.
Proof.
  intros H. apply (f_equal Queue.counter) in H. simpl in H. lia.
Qed.

Lemma or_else_first_commit_id cs :
  or_else (head cs ≫= Express.id) "unknown" = default "unknown" (first_commit_id cs).
Proof.
  destruct cs as [|[[i|] m] cs]; simpl; try done.
  by destruct (String.eqb i "").
Qed.

Lemma first_commit_id_nonempty cs : default "unknown" (first_commit_id cs) <> "".
Proof.
  destruct cs as [|[[i|] m] cs]; simpl; try done.
  destruct (String.eqb_spec i ""); simpl; done.
Qed.

Lemma push_job_of_checks agents q q0 r job gitref R
    (mk : Config.Agent -> Queue.DeployJob) :
  match find (fun a => String.eqb (Config.repo a) R) agents with
  | None => (Normal (IndexTs.ignored "unknown repo"), q)
  | Some a =>
      if negb (includes (Config.branches a) (branch_of_ref gitref)) then
        (Normal (IndexTs.ignored "branch not configured"), q)
      else if negb (Config.autoDeploy a) then
        (Normal (IndexTs.ignored "auto-deploy disabled"), q)
      else
        let job := Queue.fresh (pretty (S (Queue.counter q))) "deploy" (mk a) deploy_opts in
        (Normal (queued_push job a (branch_of_ref gitref)), enqueued q job)
  end = (r, q0) ->
  q0 = enqueued q job ->
  exists a, Queue.data job = mk a.
Proof.
  intros Hrun ->.
  destruct (find _ agents) as [a|];
    [|injection Hrun as _ Hq; symmetry in Hq; by apply enqueued_neq in Hq].
  destruct (includes _ _); simpl in Hrun;
    [|injection Hrun as _ Hq; symmetry in Hq; by apply enqueued_neq in Hq].
  destruct (Config.autoDeploy a); simpl in Hrun;
    [|injection Hrun as _ Hq; symmetry in Hq; by apply enqueued_neq in Hq].
  injection Hrun as _ Hq. apply app_inj_tail in Hq as [_ <-]. by exists a.
Qed.

(** X5.  The job a push enqueues always records a commit, and never an
    empty one: the id of the first commit of the push, or ['unknown'] when
    the push has no commits or its first commit has no id or an empty id;
    the other commits of the push are ignored.  [src/index.ts] records a
    commit message as well, the JavaScript copy none. *)
Theorem X5_push_job_commit agents config hmac stringify now req q gitref R cs r job :
  push_trigger config hmac stringify req gitref R cs ->
  (IndexTs.post_webhook_github agents config hmac stringify now req q
     = (r, enqueued q job) ->
   Queue.commit (Queue.data job) = Some (default "unknown" (first_commit_id cs))
   /\ Queue.commit (Queue.data job) <> Some ""
   /\ is_Some (Queue.commitMessage (Queue.data job)))
  /\ (ServerJs.post_webhook_github agents config hmac stringify now req q
        = (r, enqueued q job) ->
      Queue.commit (Queue.data job) = Some (default "unknown" (first_commit_id cs))
      /\ Queue.commit (Queue.data job) <> Some ""
      /\ Queue.commitMessage (Queue.data job) = None).
Proof.
  intros Hpush. split; intros Hrun.
  - rewrite (IndexTs_push_after_checks _ _ _ _ _ _ _ _ _ _ Hpush) in Hrun.
    destruct (push_job_of_checks _ _ _ _ _ _ _ _ Hrun eq_refl) as [a ->]. simpl.
    rewrite or_else_first_commit_id.
    split; [done|]. split; [|by eexists].
    intros [= H]. by apply first_commit_id_nonempty in H.
  - rewrite (ServerJs_push_after_checks _ _ _ _ _ _ _ _ _ _ Hpush) in Hrun.
    destruct (push_job_of_checks _ _ _ _ _ _ _ _ Hrun eq_refl) as [a ->]. simpl.
    rewrite or_else_first_commit_id.
    split; [done|]. split; [|done].
    intros [= H]. by apply first_commit_id_nonempty in H.
Qed.

Lemma X5_push_job_commit_witness :
  push_trigger example_config example_hmac example_stringify
    (example_push "refs/heads/main" "otis-seo-agent")
    "refs/heads/main" "otis-seo-agent"
    [{| Express.id := Some "abc123"; Express.message := Some "fix" |}]
  /\ Queue.commit (Queue.data example_push_job) = Some "abc123".
Proof.
  assert (Hpush : push_trigger example_config example_hmac example_stringify
            (example_push "refs/heads/main" "otis-seo-agent")
            "refs/heads/main" "otis-seo-agent"
            [{| Express.id := Some "abc123"; Express.message := Some "fix" |}]).
  { repeat split; reflexivity. }
  split; [exact Hpush|].
  assert (Hrun : IndexTs.post_webhook_github Config.agents example_config example_hmac
            example_stringify "2024-01-01T00:00:00.000Z"
            (example_push "refs/heads/main" "otis-seo-agent") Queue.empty
          = (Normal (queued_push example_push_job
                       {| Config.name := "otis"; Config.repo := "otis-seo-agent";
                          Config.vercelProjectId := ""; Config.autoDeploy := true;
                          Config.branches := ["main"] |} "main"),
             enqueued Queue.empty example_push_job)) by (by vm_compute).
  exact (proj1 (proj1 (X5_push_job_commit Config.agents example_config example_hmac
                         example_stringify "2024-01-01T00:00:00.000Z"
                         (example_push "refs/heads/main" "otis-seo-agent") Queue.empty
                         "refs/heads/main" "otis-seo-agent" _ _ example_push_job Hpush)
                  Hrun)).
Defined.

(** *** From a trigger to the status query *)









(** *** The shipped registry *)

Lemma shipped_registry_find R :
  find (fun a => String.eqb (Config.repo a) R) Config.agents =
  if String.eqb "edna-ghl-agent" R then Config.agents !! 0
  else if String.eqb "mabel-lead-agent" R then Config.agents !! 1
  else if String.eqb "otis-seo-agent" R then Config.agents !! 2
  else if String.eqb "harold-finance-agent" R then Config.agents !! 3
  else None.
Proof.
  unfold Config.agents. simpl.
  repeat (destruct (String.eqb _ R); [reflexivity|]). reflexivity.
Qed.

Lemma shipped_registry_dispatch (q : Queue.t) R B
    (mk : Config.Agent -> Queue.DeployJob) r q' :
  match find (fun a => String.eqb (Config.repo a) R) Config.agents with
  | None => (Normal (IndexTs.ignored "unknown repo"), q)
  | Some a =>
      if negb (includes (Config.branches a) B) then
        (Normal (IndexTs.ignored "branch not configured"), q)
      else if negb (Config.autoDeploy a) then
        (Normal (IndexTs.ignored "auto-deploy disabled"), q)
      else
        let job := Queue.fresh (pretty (S (Queue.counter q))) "deploy" (mk a) deploy_opts in
        (Normal (queued_push job a B), enqueued q job)
  end = (r, q') ->
  (q' <> q <-> R ∈ map Config.repo Config.agents /\ B = "main")
  /\ r <> Normal (IndexTs.ignored "auto-deploy disabled").
Proof.
  rewrite shipped_registry_find.
  assert (Hin : forall x : string, x ∈ map Config.repo Config.agents <->
            x = "edna-ghl-agent" \/ x = "mabel-lead-agent"
            \/ x = "otis-seo-agent" \/ x = "harold-finance-agent").
  { intros x. unfold Config.agents. simpl.
    rewrite !elem_of_cons, elem_of_nil. tauto. }
  assert (Hinc : forall b, includes ["main"] b = String.eqb b "main").
  { intros b. unfold includes. simpl. by rewrite orb_false_r. }
  assert (Hq : forall (d : Queue.DeployJob) (a : Config.Agent),
            Normal (queued_push (Queue.fresh (pretty (S (Queue.counter q))) "deploy" d
                                   deploy_opts) a B)
            <> Normal (IndexTs.ignored "auto-deploy disabled")).
  { intros d a H. unfold queued_push, IndexTs.ignored in H. simpl in H. discriminate H. }
  destruct (String.eqb_spec "edna-ghl-agent" R) as [<- | H1];
    [|destruct (String.eqb_spec "mabel-lead-agent" R) as [<- | H2];
      [|destruct (String.eqb_spec "otis-seo-agent" R) as [<- | H3];
        [|destruct (String.eqb_spec "harold-finance-agent" R) as [<- | H4]]]];
    simpl; rewrite ?Hinc.
  1-4: destruct (String.eqb_spec B "main") as [HB | HB]; simpl;
    intros [= <- <-];
    (split; [|first [apply Hq | intros Hr; vm_compute in Hr; discriminate Hr]]);
    (split; [intros Hne | intros [_ HB']]);
    try done; try apply enqueued_neq;
    (split; [apply Hin; tauto | done]).
  intros [= <- <-]. split; [|intros Hr; vm_compute in Hr; discriminate Hr].
  split; [done|]. intros [HR _]. apply Hin in HR.
  destruct HR as [-> | [-> | [-> | ->]]]; done.
Qed.

(** X7.  With the registry the configuration module ships (four agents,
    each with auto-deploy on and branches [['main']]), an authenticated push
    is enqueued, by either copy of the webhook handler, exactly when its
    repository is one of the four and its branch is ['main']; the
    "auto-deploy disabled" outcome cannot occur. *)
Theorem X7_shipped_registry config hmac stringify now req q gitref R cs h r q' :
  push_trigger config hmac stringify req gitref R cs ->
  h = IndexTs.post_webhook_github Config.agents config hmac stringify now req
  \/ h = ServerJs.post_webhook_github Config.agents config hmac stringify now req ->
  h q = (r, q') ->
  (q' <> q <-> R ∈ map Config.repo Config.agents /\ branch_of_ref gitref = "main")
  /\ r <> Normal (IndexTs.ignored "auto-deploy disabled").
Proof.
  intros Hpush [-> | ->] Hrun.
  - rewrite (IndexTs_push_after_checks _ _ _ _ _ _ _ _ _ _ Hpush) in Hrun.
    exact (shipped_registry_dispatch q R (branch_of_ref gitref)
             (fun a => {| Queue.agent := Config.name a; Queue.repo := R;
                          Queue.branch := branch_of_ref gitref;
                          Queue.commit := Some (or_else (head cs ≫= Express.id) "unknown");
                          Queue.commitMessage :=
                            Some (or_else (head cs ≫= Express.message) "");
                          Queue.manual := None; Queue.timestamp := now |})
             r q' Hrun).
  - rewrite (ServerJs_push_after_checks _ _ _ _ _ _ _ _ _ _ Hpush) in Hrun.
    exact (shipped_registry_dispatch q R (branch_of_ref gitref)
             (fun a => {| Queue.agent := Config.name a; Queue.repo := R;
                          Queue.branch := branch_of_ref gitref;
                          Queue.commit := Some (or_else (head cs ≫= Express.id) "unknown");
                          Queue.commitMessage := None;
                          Queue.manual := None; Queue.timestamp := now |})
             r q' Hrun).
Qed.

Lemma X7_shipped_registry_witness :
  push_trigger example_config example_hmac example_stringify
    (example_push "refs/tags/main" "otis-seo-agent")
    "refs/tags/main" "otis-seo-agent"
    [{| Express.id := Some "abc123"; Express.message := Some "fix" |}]
  /\ ~ ((IndexTs.post_webhook_github Config.agents example_config example_hmac
           example_stringify "2024-01-01T00:00:00.000Z"
           (example_push "refs/tags/main" "otis-seo-agent") Queue.empty).2
        <> Queue.empty).
Proof.
  assert (Hpush : push_trigger example_config example_hmac example_stringify
            (example_push "refs/tags/main" "otis-seo-agent")
            "refs/tags/main" "otis-seo-agent"
            [{| Express.id := Some "abc123"; Express.message := Some "fix" |}]).
  { repeat split; reflexivity. }
  split; [exact Hpush|].
  pose (out := IndexTs.post_webhook_github Config.agents example_config example_hmac
                 example_stringify "2024-01-01T00:00:00.000Z"
                 (example_push "refs/tags/main" "otis-seo-agent") Queue.empty).
  destruct (X7_shipped_registry example_config example_hmac example_stringify
              "2024-01-01T00:00:00.000Z"
              (example_push "refs/tags/main" "otis-seo-agent") Queue.empty
              "refs/tags/main" "otis-seo-agent" _ _ out.1 out.2
              Hpush (or_introl eq_refl) eq_refl) as [[Hto _] _].
  intros Hne. destruct (Hto Hne) as [_ Hmain]. vm_compute in Hmain. discriminate.
Defined.

(* ===================================================================== *)
(** ** Further properties of the worker                                    *)
(* ===================================================================== *)

(** *** The file system around an attempt *)
















(** *** The deployment URL *)




Lemma last_char_nonempty c s : is_Some (last_char (String c s)).
Proof.
  revert c. induction s as [|d s IH]; intros c; [by eexists|]. apply (IH d).
Qed.

Lemma last_char_cons c s :
  last_char (String c s) = match last_char s with Some d => Some d | None => Some c end.
Proof.
  destruct s as [|d s]; [done|].
  change (last_char (String c (String d s))) with (last_char (String d s)).
  by destruct (last_char_nonempty d s) as [x ->].
Qed.


(** [rev_app s acc] is [s] reversed, followed by [acc]. *)
Lemma first_char_rev_app s acc :
  first_char (String.rev_app s acc)
  = match last_char s with Some c => Some c | None => first_char acc end.
Proof.
  revert acc. induction s as [|c s IH]; intros acc; [done|].
  simpl String.rev_app. rewrite IH, last_char_cons. by destruct (last_char s).
Qed.
















(** *** Failures of the child processes *)




(* ===================================================================== *)
(** ** Properties of the configuration                                     *)
(* ===================================================================== *)


Lemma or_else_cases (x : option string) (dflt : string) :
  (or_else x dflt = dflt /\ (x = None \/ x = Some ""))
  \/ (x = Some (or_else x dflt) /\ or_else x dflt <> "").
Proof.
  destruct x as [s|]; simpl; [|by left; split; [|left]].
  destruct (String.eqb_spec s "") as [-> | Hne]; [left | right]; split; auto.
Qed.

